(** * Device-history route handlers and the UI error boundary

    A shallow embedding of the three route handlers of the device-history
    API ([GET], [POST], [DELETE]) and of the [ErrorBoundary] React
    component with its [withErrorBoundary] wrapper, followed by the
    properties established about them.

    The handlers talk to a hosted backend.  Everything they obtain from
    outside (the session lookup, the outcome of each awaited query, the
    user-agent parser, the identifier generator, the clock) is gathered in
    a [Runtime] record; the backend tables are an explicit [Database]
    value threaded through a small state-and-exception monad, so that a
    change made before an exception is still there after it, as in the
    JavaScript original. *)

From Stdlib Require Import String Ascii List ZArith Bool Arith Lia.
From Stdlib Require Import Sorting.Sorted Sorting.Permutation.
Import ListNotations.
Local Open Scope string_scope.
Local Open Scope list_scope.
Set Warnings "-register-all".

(* ===================================================================== *)
(** ** JavaScript values used by the handlers                             *)
(* ===================================================================== *)

Module Js.

(** A parsed JSON value, plus [undefined] for a property that is not
    there.  The handlers never compute with a number: they print it into
    a filter or pass it on.  A number is therefore kept as the text that
    JavaScript's number-to-string conversion gives for it (["1e+21"] for
    the number written 1e21, ["9007199254740992"] for 2^53+1, ["0.5"]). *)
Inductive JsValue : Type :=
| JsUndefined
| JsNull
| JsBool (b : bool)
| JsNumber (text : string)
| JsString (s : string)
| JsArray (items : list JsValue)
| JsObject (fields : list (string * JsValue)).

(** A thrown or reported error object.  Only [message] is read by the
    handlers; [name] tells the kinds apart. *)
Record JsError : Type := mkError {
  name : string;
  message : option string
}.

(** Truthiness of a string-or-null value: [null] and the empty string are falsy. *)
Definition truthy (v : option string) : bool :=
  match v with
  | Some s => negb (s =? EmptyString)
  | None => false
  end.

(** [a || b] on string-or-null values. *)
Definition or_else (a b : option string) : option string :=
  if truthy a then a else b.

(** [a || 'literal']: the right operand is a non-empty literal. *)
Definition or_default (a : option string) (dflt : string) : string :=
  match a with
  | Some s => if s =? EmptyString then dflt else s
  | None => dflt
  end.

(** String conversion of a string-or-undefined value inside a template
    literal: [`${x}`]. *)
Definition interpolate (v : option string) : string :=
  match v with
  | Some s => s
  | None => "undefined"
  end.

(** [String(v)], as a template literal applies it to any value. *)
Fixpoint ToString (v : JsValue) : string :=
  match v with
  | JsUndefined => "undefined"
  | JsNull => "null"
  | JsBool true => "true"
  | JsBool false => "false"
  | JsNumber text => text
  | JsString s => s
  | JsArray items =>
      (fix join (l : list JsValue) : string :=
         match l with
         | [] => EmptyString
         | x :: rest =>
             let cell := match x with
                         | JsUndefined | JsNull => EmptyString
                         | _ => ToString x
                         end in
             match rest with
             | [] => cell
             | _ :: _ => (cell ++ "," ++ join rest)%string
             end
         end) items
  | JsObject _ => "[object Object]"
  end.

(** Property read [obj.key] on a parsed object: the last binding of a
    duplicated key is the one [JSON.parse] keeps. *)
Fixpoint lookup (key : string) (fields : list (string * JsValue)) : JsValue :=
  match fields with
  | [] => JsUndefined
  | (k, v) :: rest =>
      match lookup key rest with
      | JsUndefined => if k =? key then v else JsUndefined
      | found => found
      end
  end.

(** The [TypeError] of reading [.id] from [null]. *)
Definition null_id_error : JsError :=
  mkError "TypeError" (Some "Cannot read properties of null (reading 'id')").

(** The [TypeError] of destructuring [{ deviceId }] from [null]. *)
Definition destructure_error : JsError :=
  mkError "TypeError"
    (Some "Cannot destructure property 'deviceId' of '(intermediate value)' as it is null.").

End Js.
Import Js.

(* ===================================================================== *)
(** ** The backend: tables, queries and their execution                   *)
(* ===================================================================== *)

Module Backend.

(** A row of [device_history], with the columns the handler writes. *)
Record DeviceInfo : Type := mkDevice {
  user_id : string;
  device_id : string;
  device_name : string;
  browser : option string;
  os : option string;
  ip_address : option string;
  is_current : bool;
  last_active : string
}.

(** The event types written to [security_logs]. *)
Inductive LogType : Type := new_device_added | device_removed.

(** A row of [security_logs].  [details] is the object
    [{ device_id, timestamp }]. *)
Record SecurityLog : Type := mkLog {
  log_user_id : string;
  log_type : LogType;
  details_device_id : JsValue;
  details_timestamp : string;
  log_ip_address : option string
}.

Record Database : Type := mkDatabase {
  device_history : list DeviceInfo;
  security_logs : list SecurityLog
}.

(** The five queries the handlers build. *)
Inductive Query : Type :=
| SelectDevices (uid : string)
    (* from('device_history').select('*').eq('user_id', uid)
         .order('last_active', { ascending: false }) *)
| ClearCurrent (uid : string)
    (* from('device_history').update({ is_current: false }).eq('user_id', uid) *)
| InsertDevice (row : DeviceInfo)
    (* from('device_history').insert(row) *)
| DeleteDevice (uid : string) (deviceId : JsValue)
    (* from('device_history').delete().eq('user_id', uid).eq('device_id', deviceId) *)
| InsertLog (row : SecurityLog).
    (* from('security_logs').insert(row) *)

Definition table (q : Query) : string :=
  match q with
  | SelectDevices _ | ClearCurrent _ | InsertDevice _ | DeleteDevice _ _ =>
      "device_history"
  | InsertLog _ => "security_logs"
  end.

Definition set_not_current (d : DeviceInfo) : DeviceInfo :=
  mkDevice (user_id d) (device_id d) (device_name d) (browser d) (os d)
           (ip_address d) false (last_active d).

(** [.eq('user_id', uid)] *)
Definition owned_by (uid : string) (d : DeviceInfo) : bool :=
  user_id d =? uid.

(** [.eq('user_id', uid).eq('device_id', deviceId)]: the filter value is
    sent as text. *)
Definition targeted (uid : string) (deviceId : JsValue) (d : DeviceInfo) : bool :=
  owned_by uid d && (device_id d =? ToString deviceId).

(** [.order('last_active', { ascending: false })], as a stable insertion. *)
Fixpoint insert_desc (d : DeviceInfo) (l : list DeviceInfo) : list DeviceInfo :=
  match l with
  | [] => [d]
  | x :: rest =>
      if (last_active x <? last_active d)%string
      then d :: x :: rest
      else x :: insert_desc d rest
  end.

Definition order_desc (l : list DeviceInfo) : list DeviceInfo :=
  fold_right insert_desc [] l.

(** What a query does to the tables when the backend carries it out, and
    the [data] it returns: the rows for a select, [null] for a mutation
    without [.select()]. *)
Definition execute (q : Query) (db : Database) : Database * option (list DeviceInfo) :=
  match q with
  | SelectDevices uid =>
      (db, Some (order_desc (filter (owned_by uid) (device_history db))))
  | ClearCurrent uid =>
      (mkDatabase
         (map (fun d => if owned_by uid d then set_not_current d else d)
              (device_history db))
         (security_logs db), None)
  | InsertDevice row =>
      (mkDatabase (device_history db ++ [row]) (security_logs db), None)
  | DeleteDevice uid deviceId =>
      (mkDatabase
         (filter (fun d => negb (targeted uid deviceId d)) (device_history db))
         (security_logs db), None)
  | InsertLog row =>
      (mkDatabase (device_history db) (security_logs db ++ [row]), None)
  end.

(** How the backend answers one awaited query: it carries the query out;
    or it does not and reports an error in the [error] field of the
    result; or the request itself is rejected with an exception. *)
Inductive Outcome : Type :=
| Applied
| Reported (e : JsError)
| Rejected (e : JsError).

(** The [{ data, error }] object an awaited query resolves to. *)
Record QueryResult : Type := mkResult {
  data : option (list DeviceInfo);
  error : option JsError
}.

End Backend.
Import Backend.

(* ===================================================================== *)
(** ** The route handlers                                                 *)
(* ===================================================================== *)

Module Route.

(** The part of the authenticated user the handlers read. *)
Record User : Type := mkUser { id : string }.

(** What [createRouteHandlerClient({ cookies })] followed by
    [await supabase.auth.getUser()] yields: the [data.user] field, which
    is [null] without a session, or an exception. *)
Inductive SessionLookup : Type :=
| SessionResolved (user : option User)
| SessionFailed (e : JsError).

(** The two fields of the user-agent parser's result that are read:
    [result.browser.name] and [result.os.name]. *)
Record IResult : Type := mkIResult {
  browser_name : option string;
  os_name : option string
}.

(** Everything one request obtains from outside the handler. *)
Record Runtime : Type := mkRuntime {
  getUser : SessionLookup;
  backend : nat -> Outcome;          (* answer to the n-th awaited query *)
  UAParser : option string -> IResult;
  uuidv4 : string;
  toISOString : nat -> string        (* n-th reading of [new Date()] *)
}.

(** The incoming request: its headers (names in lower case) and what
    [req.json()] settles to. *)
Record Request : Type := mkRequest {
  headers : list (string * string);
  json : JsError + JsValue
}.

Definition headers_get (req : Request) (key : string) : option string :=
  option_map snd (find (fun kv => fst kv =? key)%string (headers req)).

(** The bodies the handlers serialize. *)
Inductive Body : Type :=
| ErrorBody (error : string)                        (* { error } *)
| DevicesBody (devices : option (list DeviceInfo))  (* { devices } *)
| SuccessBody (deviceId : option string).           (* { success: true, deviceId? } *)

Record Response : Type := mkResponse {
  status : nat;
  body : Body
}.

(** [NextResponse.json(body, { status })]; the status defaults to 200. *)
Definition NextResponse_json (b : Body) (init : option nat) : Response :=
  mkResponse (match init with Some s => s | None => 200 end) b.

(** State seen by one run of a handler: the tables, the queries awaited
    so far, and the diagnostic stream. *)
Record World : Type := mkWorld {
  db : Database;
  issued : list Query;
  console : list (string * JsError)
}.

(** How an evaluation ends. *)
Inductive Completion (A : Type) : Type :=
| Normal (a : A)
| Throw (e : JsError).
Arguments Normal {A} a.
Arguments Throw {A} e.

(** An [async] computation: the state survives an exception. *)
Definition Async (A : Type) : Type := World -> Completion A * World.

Definition ret {A} (a : A) : Async A := fun w => (Normal a, w).

Definition throw {A} (e : JsError) : Async A := fun w => (Throw e, w).

Definition bind {A B} (m : Async A) (k : A -> Async B) : Async B :=
  fun w =>
    match m w with
    | (Normal a, w') => k a w'
    | (Throw e, w') => (Throw e, w')
    end.

(** [try { body } catch (error) { handler }] *)
Definition try_catch {A} (body : Async A) (handler : JsError -> Async A) : Async A :=
  fun w =>
    match body w with
    | (Normal a, w') => (Normal a, w')
    | (Throw e, w') => handler e w'
    end.

Notation "x <- m ;; k" := (bind m (fun x => k))
  (at level 61, m at next level, right associativity).
Notation "m ;; k" := (bind m (fun _ => k))
  (at level 61, right associativity).

(** [await query]: the query is sent; the backend's answer decides
    whether the tables change and what comes back. *)
Definition await (rt : Runtime) (q : Query) : Async QueryResult :=
  fun w =>
    let sent := issued w ++ [q] in
    match backend rt (length (issued w)) with
    | Applied =>
        let '(db', rows) := execute q (db w) in
        (Normal (mkResult rows None), mkWorld db' sent (console w))
    | Reported e =>
        (Normal (mkResult None (Some e)), mkWorld (db w) sent (console w))
    | Rejected e =>
        (Throw e, mkWorld (db w) sent (console w))
    end.

(** [console.error(label, error)] *)
Definition console_error (label : string) (e : JsError) : Async unit :=
  fun w => (Normal tt, mkWorld (db w) (issued w) (console w ++ [(label, e)])).

(** The two statements that open every handler. *)
Definition resolve_user (rt : Runtime) : Async (option User) :=
  match getUser rt with
  | SessionResolved user => ret user
  | SessionFailed e => throw e
  end.

(** [user.id] *)
Definition user_id_of (user : option User) : Async string :=
  match user with
  | Some u => ret (id u)
  | None => throw null_id_error
  end.

(** [await req.json()] *)
Definition req_json (req : Request) : Async JsValue :=
  match json req with
  | inr v => ret v
  | inl e => throw e
  end.

(** [const { deviceId } = value] *)
Definition destructure_deviceId (v : JsValue) : Async JsValue :=
  match v with
  | JsNull | JsUndefined => throw destructure_error
  | JsObject fields => ret (lookup "deviceId" fields)
  | _ => ret JsUndefined
  end.

(** [if (error) throw error] *)
Definition throw_if_error (r : QueryResult) : Async unit :=
  match error r with
  | Some e => throw e
  | None => ret tt
  end.

(** [req.headers.get('x-forwarded-for') || req.headers.get('x-real-ip')] *)
Definition client_ip (req : Request) : option string :=
  or_else (headers_get req "x-forwarded-for") (headers_get req "x-real-ip").

(** The shared shape of the three [catch] blocks. *)
Definition respond_500 (label fallback : string) (error : JsError) : Async Response :=
  console_error label error ;;
  ret (NextResponse_json (ErrorBody (or_default (message error) fallback)) (Some 500)).

(** *** List *)

Definition GET_try (rt : Runtime) (user : User) : Async Response :=
  r <- await rt (SelectDevices (id user)) ;;
  throw_if_error r ;;
  ret (NextResponse_json (DevicesBody (data r)) None).

Definition GET (rt : Runtime) (req : Request) : Async Response :=
  user <- resolve_user rt ;;
  match user with
  | None => ret (NextResponse_json (ErrorBody "Unauthorized") (Some 401))
  | Some user =>
      try_catch (GET_try rt user)
        (respond_500 "Error getting device history:" "Failed to get device history")
  end.

(** *** Register *)

Definition POST_try (rt : Runtime) (req : Request) (user : option User) : Async Response :=
  let userAgent := headers_get req "user-agent" in
  let ipAddress := client_ip req in
  let result := UAParser rt userAgent in
  let deviceId := uuidv4 rt in
  uid <- user_id_of user ;;
  let deviceInfo :=
    mkDevice uid deviceId
      (interpolate (browser_name result) ++ " on " ++ interpolate (os_name result))%string
      (browser_name result) (os_name result) ipAddress true (toISOString rt 0) in
  uid1 <- user_id_of user ;;
  await rt (ClearCurrent uid1) ;;
  r <- await rt (InsertDevice deviceInfo) ;;
  throw_if_error r ;;
  uid2 <- user_id_of user ;;
  await rt (InsertLog (mkLog uid2 new_device_added (JsString deviceId)
                             (toISOString rt 1) ipAddress)) ;;
  ret (NextResponse_json (SuccessBody (Some deviceId)) None).

Definition POST (rt : Runtime) (req : Request) : Async Response :=
  user <- resolve_user rt ;;
  try_catch (POST_try rt req user)
    (respond_500 "Error adding device:" "Failed to add device").

(** *** Remove *)

Definition DELETE_try (rt : Runtime) (req : Request) (user : option User) : Async Response :=
  parsed <- req_json req ;;
  deviceId <- destructure_deviceId parsed ;;
  uid <- user_id_of user ;;
  r <- await rt (DeleteDevice uid deviceId) ;;
  throw_if_error r ;;
  uid1 <- user_id_of user ;;
  await rt (InsertLog (mkLog uid1 device_removed deviceId
                             (toISOString rt 0) (client_ip req))) ;;
  ret (NextResponse_json (SuccessBody None) None).

Definition DELETE (rt : Runtime) (req : Request) : Async Response :=
  user <- resolve_user rt ;;
  try_catch (DELETE_try rt req user)
    (respond_500 "Error removing device:" "Failed to remove device").

(** One request served against the tables [d]. *)
Definition serve (handler : Async Response) (d : Database) : Completion Response * World :=
  handler (mkWorld d [] []).

End Route.
Import Route.

(* ===================================================================== *)
(** ** The error boundary component                                       *)
(* ===================================================================== *)

Module React.

(** Event handlers that appear in the tree. *)
Inductive Handler : Type := handleRetry_ref.

(** Attribute values of the panel's elements. *)
Inductive Attr : Type :=
| Text (s : string)
| Callback (h : Handler).

(** A [ReactNode].  [C] is the type of user components and [P] the type
    of their props; the falsy nodes are kept apart because the boundary
    tests its [fallback] for truthiness. *)
Inductive ReactNode (C P : Type) : Type :=
| RUndefined
| RNull
| RBool (b : bool)
| RNumber (n : Z)
| RString (s : string)
| RElement (type : string) (attrs : list (string * Attr))
           (children : list (ReactNode C P))
| RComponent (type : C) (props : P)
| RErrorBoundary (fallback : ReactNode C P) (children : ReactNode C P).
Arguments RUndefined {C P}.
Arguments RNull {C P}.
Arguments RBool {C P} b.
Arguments RNumber {C P} n.
Arguments RString {C P} s.
Arguments RElement {C P} type attrs children.
Arguments RComponent {C P} type props.
Arguments RErrorBoundary {C P} fallback children.

(** JavaScript truthiness of a node. *)
Definition truthy_node {C P} (n : ReactNode C P) : bool :=
  match n with
  | RUndefined | RNull => false
  | RBool b => b
  | RNumber n => negb (n =? 0)%Z
  | RString s => negb (s =? EmptyString)%string
  | RElement _ _ _ | RComponent _ _ | RErrorBoundary _ _ => true
  end.

End React.
Import React.

Module ErrorBoundary.

Section Class.
Context {C P : Type}.

Record Props : Type := mkProps {
  children : ReactNode C P;
  fallback : ReactNode C P          (* [RUndefined] when omitted *)
}.

Record State : Type := mkState {
  hasError : bool;
  error : option JsError
}.

(** [public state: State = { hasError: false }] *)
Definition state : State := mkState false None.

Definition getDerivedStateFromError (error : JsError) : State :=
  mkState true (Some error).

(** [componentDidCatch] only writes to the diagnostic stream. *)
Definition componentDidCatch (error : JsError) (log : list (string * JsError))
  : list (string * JsError) :=
  log ++ [("Uncaught error:"%string, error)].

(** [this.setState({ hasError: false, error: undefined })]: both fields
    of the state are overwritten. *)
Definition handleRetry (s : State) : State :=
  mkState false None.

(** [this.state.error?.message || 'An unexpected error occurred'] *)
Definition panel_message (s : State) : string :=
  or_default (match error s with Some e => message e | None => None end)
             "An unexpected error occurred".

(** The default message-and-retry panel. *)
Definition panel (s : State) : ReactNode C P :=
  RElement "Alert" [("variant", Text "destructive"); ("className", Text "m-4")]
    [ RElement "AlertTitle" [] [RString "Something went wrong"];
      RElement "AlertDescription" [("className", Text "mt-2")]
        [ RElement "p" [("className", Text "mb-4")] [RString (panel_message s)];
          RElement "Button"
            [("variant", Text "outline");
             ("onClick", Callback handleRetry_ref);
             ("className", Text "flex items-center space-x-2")]
            [ RElement "RefreshCw" [("className", Text "h-4 w-4")] [];
              RElement "span" [] [RString "Try again"] ] ] ].

Definition render (props : Props) (s : State) : ReactNode C P :=
  if hasError s then
    if truthy_node (fallback props) then fallback props
    else panel s
  else children props.

(** A mounted boundary. *)
Record Instance : Type := mkInstance {
  props : Props;
  current : State;
  log : list (string * JsError)
}.

Definition mount (p : Props) : Instance := mkInstance p state [].

(** What rendering the boundary's children does on one attempt. *)
Inductive Attempt : Type :=
| Renders
| Throws (e : JsError).

(** One render pass, following the framework's contract for error
    boundaries: the boundary's [render] runs; when it returned the
    children and rendering them threw, the state derived from the error
    is installed, [componentDidCatch] is called and [render] runs again.
    While errored the children are not rendered at all. *)
Definition render_pass (i : Instance) (a : Attempt) : Instance * ReactNode C P :=
  if hasError (current i) then (i, render (props i) (current i))
  else
    match a with
    | Renders => (i, render (props i) (current i))
    | Throws e =>
        let s := getDerivedStateFromError e in
        (mkInstance (props i) s (componentDidCatch e (log i)),
         render (props i) s)
    end.

(** Invoking a handler found in the rendered tree. *)
Definition invoke (i : Instance) (h : Handler) : Instance :=
  match h with
  | handleRetry_ref => mkInstance (props i) (handleRetry (current i)) (log i)
  end.

(** The handler attached to ["onClick"] in an attribute list. *)
Fixpoint onClick (attrs : list (string * Attr)) : option Handler :=
  match attrs with
  | [] => None
  | (k, Callback h) :: rest => if (k =? "onClick")%string then Some h else onClick rest
  | _ :: rest => onClick rest
  end.

(** The click handlers of the buttons in a tree. *)
Fixpoint buttons (n : ReactNode C P) : list Handler :=
  match n with
  | RElement type attrs kids =>
      (if (type =? "Button")%string
       then match onClick attrs with Some h => [h] | None => [] end
       else [])
      ++ flat_map buttons kids
  | _ => []
  end.

End Class.

End ErrorBoundary.

(** [withErrorBoundary(Component, fallback)] is the function
    [WithErrorBoundary]; spreading [props] hands the component the same
    properties. *)
Definition withErrorBoundary {C P : Type} (Component : C) (fallback : ReactNode C P)
  : P -> ReactNode C P :=
  fun props => RErrorBoundary fallback (RComponent Component props).

(** Mounting an [<ErrorBoundary>] element: its attributes and nested
    content become the instance's props. *)
Definition mount_element {C P : Type} (n : ReactNode C P)
  : option (@ErrorBoundary.Instance C P) :=
  match n with
  | RErrorBoundary fb kids => Some (ErrorBoundary.mount (ErrorBoundary.mkProps kids fb))
  | _ => None
  end.

(* ===================================================================== *)
(** ** Vocabulary of the statements                                       *)
(* ===================================================================== *)

Module Spec.

(** The response a handler sends when a failure [e] reaches its [catch]
    block whose fallback text is [fallback]. *)
Definition failure_response (fallback : string) (e : JsError) : Response :=
  mkResponse 500 (ErrorBody (or_default (message e) fallback)).

(** Register's success response. *)
Definition registered (deviceId : string) : Response :=
  mkResponse 200 (SuccessBody (Some deviceId)).

(** Remove's success response. *)
Definition removed : Response :=
  mkResponse 200 (SuccessBody None).

(** The state a request starts from. *)
Definition start (d : Database) : World := mkWorld d [] [].

(** The device row Register builds. *)
Definition new_device (rt : Runtime) (req : Request) (u : User) : DeviceInfo :=
  let result := UAParser rt (headers_get req "user-agent") in
  mkDevice (id u) (uuidv4 rt)
    (interpolate (browser_name result) ++ " on " ++ interpolate (os_name result))%string
    (browser_name result) (os_name result) (client_ip req) true (toISOString rt 0).

(** The audit row Register builds. *)
Definition added_entry (rt : Runtime) (req : Request) (u : User) : SecurityLog :=
  mkLog (id u) new_device_added (JsString (uuidv4 rt)) (toISOString rt 1) (client_ip req).

(** The audit row Remove builds. *)
Definition removed_entry (rt : Runtime) (req : Request) (u : User) (deviceId : JsValue)
  : SecurityLog :=
  mkLog (id u) device_removed deviceId (toISOString rt 0) (client_ip req).

(** Register's three persistence steps, in order. *)
Definition register_steps (rt : Runtime) (req : Request) (u : User) : list Query :=
  [ ClearCurrent (id u);
    InsertDevice (new_device rt req u);
    InsertLog (added_entry rt req u) ].

(** The first persistence step of Register whose failure reaches the
    [catch] block, with the error it raises: a rejected request at any of
    the three steps, or an error reported by the device insert. *)
Definition aborting_failure (rt : Runtime) : option (nat * JsError) :=
  match backend rt 0 with
  | Rejected e => Some (0, e)
  | _ =>
      match backend rt 1 with
      | Rejected e | Reported e => Some (1, e)
      | Applied =>
          match backend rt 2 with
          | Rejected e => Some (2, e)
          | _ => None
          end
      end
  end.

(** The [deviceId] Remove reads from the request body, when the body can
    be read at all. *)
Definition body_deviceId (req : Request) : option JsValue :=
  match json req with
  | inl _ => None
  | inr (JsNull | JsUndefined) => None
  | inr (JsObject fields) => Some (lookup "deviceId" fields)
  | inr _ => Some JsUndefined
  end.

(** The exception Remove's [try] block raises when there is no user. *)
Definition remove_fault (req : Request) : JsError :=
  match json req with
  | inl e => e
  | inr (JsNull | JsUndefined) => destructure_error
  | inr _ => null_id_error
  end.

(** Queries against the audit table. *)
Definition is_audit_insert (q : Query) : bool :=
  match q with
  | InsertLog _ => true
  | _ => false
  end.

(** The tables as a request leaves them. *)
Definition tables_after (handler : Async Response) (d : Database) : Database :=
  db (snd (serve handler d)).

End Spec.
Import Spec.

(* ===================================================================== *)
(** ** Sample data                                                        *)
(* ===================================================================== *)

Module Sample.

Definition alice : User := mkUser "alice".

Definition laptop : DeviceInfo :=
  mkDevice "alice" "dev-1" "Firefox on Linux" (Some "Firefox") (Some "Linux")
           (Some "10.0.0.1") true "2024-01-01T00:00:00.000Z".

Definition phone_of_bob : DeviceInfo :=
  mkDevice "bob" "dev-9" "Safari on iOS" (Some "Safari") (Some "iOS")
           None true "2024-01-02T00:00:00.000Z".

Definition tables : Database := mkDatabase [laptop; phone_of_bob] [].

Definition permission_denied : JsError :=
  mkError "PostgrestError" (Some "permission denied for table device_history").

Definition no_names (_ : option string) : IResult := mkIResult None None.

Definition chrome_on_windows (_ : option string) : IResult :=
  mkIResult (Some "Chrome") (Some "Windows").

Definition stamps (n : nat) : string :=
  match n with
  | 0 => "2024-02-01T10:00:00.000Z"
  | _ => "2024-02-01T10:00:00.050Z"
  end.

Definition always_applied (_ : nat) : Outcome := Applied.

(** The n-th query reports an error, every other one is carried out. *)
Definition reports_at (k : nat) (e : JsError) (n : nat) : Outcome :=
  if (n =? k)%nat then Reported e else Applied.

(** The n-th query is rejected, every other one is carried out. *)
Definition rejects_at (k : nat) (e : JsError) (n : nat) : Outcome :=
  if (n =? k)%nat then Rejected e else Applied.

Definition signed_in (b : nat -> Outcome) : Runtime :=
  mkRuntime (SessionResolved (Some alice)) b chrome_on_windows "dev-2" stamps.

Definition signed_out : Runtime :=
  mkRuntime (SessionResolved None) always_applied chrome_on_windows "dev-2" stamps.

Definition no_session_service : Runtime :=
  mkRuntime (SessionFailed (mkError "Error" (Some "supabaseUrl and supabaseKey are required!")))
            always_applied chrome_on_windows "dev-2" stamps.

Definition browser_request : Request :=
  mkRequest [("user-agent", "Mozilla/5.0 Chrome/100 Windows"); ("x-real-ip", "10.0.0.7")]
            (inr (JsObject [("deviceId", JsString "dev-1")])).

Definition bare_request : Request :=
  mkRequest [] (inl (mkError "SyntaxError" (Some "Unexpected end of JSON input"))).

End Sample.

(* ===================================================================== *)
(** ** Runs of a mounted boundary, and further vocabulary                 *)
(* ===================================================================== *)

Module Lifecycle.

Import ErrorBoundary.

(** What can happen to a mounted boundary: a render pass, or a click on
    the panel's retry button. *)
Inductive Event : Type :=
| Pass (a : Attempt)
| Retry.

Definition step {C P : Type} (i : @Instance C P) (ev : Event) : @Instance C P :=
  match ev with
  | Pass a => fst (render_pass i a)
  | Retry => invoke i handleRetry_ref
  end.

Definition run {C P : Type} (i : @Instance C P) (evs : list Event) : @Instance C P :=
  fold_left step evs i.

(** What the boundary shows in its present state. *)
Definition shown {C P : Type} (i : @Instance C P) : ReactNode C P :=
  render (props i) (current i).

(** The failures a run is expected to report, in order: the error of
    each pass that throws while the boundary is in the normal state.
    [errored] tells whether the boundary is errored when the events
    start; a throw makes it so and a retry ends it. *)
Fixpoint reported (errored : bool) (evs : list Event) : list JsError :=
  match evs with
  | [] => []
  | Pass (Throws e) :: rest =>
      if errored then reported true rest else e :: reported true rest
  | Pass Renders :: rest => reported errored rest
  | Retry :: rest => reported false rest
  end.

Definition is_retry (ev : Event) : bool :=
  match ev with
  | Retry => true
  | Pass _ => false
  end.

Definition is_throw (ev : Event) : bool :=
  match ev with
  | Pass (Throws _) => true
  | _ => false
  end.

End Lifecycle.

Module More.

(** Rows that do not belong to [uid]. *)
Definition foreign (uid : string) (d : DeviceInfo) : bool :=
  negb (owned_by uid d).

(** The rows of [uid] that are flagged current. *)
Definition current_rows (uid : string) (rows : list DeviceInfo) : list DeviceInfo :=
  filter (fun d => owned_by uid d && is_current d) rows.

(** [a] may precede [b] in a listing ordered by [last_active], newest
    first. *)
Definition not_older (a b : DeviceInfo) : Prop :=
  (last_active a <? last_active b)%string = false.

(** The clearing update applied to a table. *)
Definition cleared (uid : string) (rows : list DeviceInfo) : list DeviceInfo :=
  map (fun d => if owned_by uid d then set_not_current d else d) rows.

(** The answers a handler can give. *)
Definition is_error_body (b : Body) : bool :=
  match b with
  | ErrorBody _ => true
  | _ => false
  end.

(** A run writes to the diagnostic stream exactly when it answers 500:
    then one line, under the handler's [label], holding the error whose
    message (or the [fallback] text) is sent back. *)
Definition logged_once (label fallback : string) (out : Completion Response * World) : Prop :=
  match fst out with
  | Normal r =>
      if (status r =? 500)%nat
      then exists e, console (snd out) = [(label, e)]
                     /\ body r = ErrorBody (or_default (message e) fallback)
      else console (snd out) = []
  | Throw _ => console (snd out) = []
  end.

(** Which of Register's writes the backend carried out, given that the
    user is resolved: the clearing update; the device insert (sent unless
    the update was rejected); the audit insert (sent only after the
    device insert was carried out). *)
Definition flags_cleared (rt : Runtime) : bool :=
  match backend rt 0 with
  | Applied => true
  | _ => false
  end.

Definition device_stored (rt : Runtime) : bool :=
  match backend rt 0, backend rt 1 with
  | Rejected _, _ => false
  | _, Applied => true
  | _, _ => false
  end.

Definition entry_stored (rt : Runtime) : bool :=
  device_stored rt &&
  match backend rt 2 with
  | Applied => true
  | _ => false
  end.


End More.
Import More.

(* ===================================================================== *)
(** ** Properties of the route handlers                                   *)
(* ===================================================================== *)

(** Unfolds a handler run down to the backend's answers. *)
Ltac run_handler :=
  cbv beta delta
    [serve start GET POST DELETE GET_try POST_try DELETE_try try_catch bind
     ret throw resolve_user user_id_of req_json destructure_deviceId
     throw_if_error respond_500 console_error await NextResponse_json
     failure_response registered removed] in *;
  cbn [fst snd db issued console length app execute error data
       status body message] in *.

(** Case analysis on the backend's answers to the first three queries. *)
Ltac by_answers rt :=
  destruct (backend rt 0) eqn:?Ans0;
  destruct (backend rt 1) eqn:?Ans1;
  destruct (backend rt 2) eqn:?Ans2.

(** Replays the recorded answers through an unfolded run. *)
Ltac use_answers :=
  repeat (cbn [fst snd db issued console length app execute error data
               status body message firstn] in *;
          match goal with
          | E : backend ?rt ?n = _ |- context [backend ?rt ?n] => rewrite E
          | E : backend ?rt ?n = _, H : context [backend ?rt ?n] |- _ =>
              rewrite E in H
          end);
  cbn [fst snd db issued console length app execute error data
       status body message firstn device_history security_logs] in *.

(** *** The monad, and the handlers on sample requests *)

Lemma bind_ret {A B : Type} (a : A) (k : A -> Async B) :
  bind (ret a) k = k a.
Proof. reflexivity. Qed.

Lemma bind_throw {A B : Type} (e : JsError) (k : A -> Async B) :
  bind (throw e) k = throw e.
Proof. reflexivity. Qed.

Lemma try_catch_ret {A : Type} (a : A) (handler : JsError -> Async A) :
  try_catch (ret a) handler = ret a.
Proof. reflexivity. Qed.

Lemma try_catch_throw {A : Type} (e : JsError) (handler : JsError -> Async A) :
  try_catch (throw e) handler = handler e.
Proof.
  unfold try_catch, throw. reflexivity.
Qed.

(** Register with everything in order: the row is named from the parsed
    agent, the user's earlier row loses its flag, another user's row is
    left alone, and one audit entry is written. *)
Example register_on_sample :
  serve (POST (Sample.signed_in Sample.always_applied) Sample.browser_request)
        Sample.tables
  = (Normal (registered "dev-2"),
     mkWorld
       (mkDatabase
          [ set_not_current Sample.laptop; Sample.phone_of_bob;
            mkDevice "alice" "dev-2" "Chrome on Windows" (Some "Chrome") (Some "Windows")
                     (Some "10.0.0.7") true "2024-02-01T10:00:00.000Z" ]
          [ mkLog "alice" new_device_added (JsString "dev-2")
                  "2024-02-01T10:00:00.050Z" (Some "10.0.0.7") ])
       [ ClearCurrent "alice";
         InsertDevice
           (mkDevice "alice" "dev-2" "Chrome on Windows" (Some "Chrome") (Some "Windows")
                     (Some "10.0.0.7") true "2024-02-01T10:00:00.000Z");
         InsertLog (mkLog "alice" new_device_added (JsString "dev-2")
                          "2024-02-01T10:00:00.050Z" (Some "10.0.0.7")) ]
       []).
Proof. reflexivity. Qed.

(** List returns the user's rows, most recently active first. *)
Example list_on_sample :
  fst (serve (GET (Sample.signed_in Sample.always_applied) Sample.browser_request)
             (mkDatabase
                [ Sample.laptop; Sample.phone_of_bob;
                  mkDevice "alice" "dev-2" "Chrome on Windows" (Some "Chrome")
                           (Some "Windows") (Some "10.0.0.7") true
                           "2024-02-01T10:00:00.000Z" ]
                []))
  = Normal (mkResponse 200
      (DevicesBody
         (Some [ mkDevice "alice" "dev-2" "Chrome on Windows" (Some "Chrome")
                          (Some "Windows") (Some "10.0.0.7") true
                          "2024-02-01T10:00:00.000Z";
                 Sample.laptop ]))).
Proof. reflexivity. Qed.

(** A failed select reaches List's [catch] block. *)
Example list_failure_on_sample :
  fst (serve (GET (Sample.signed_in (Sample.reports_at 0 (mkError "PostgrestError" None)))
                  Sample.browser_request) Sample.tables)
  = Normal (mkResponse 500 (ErrorBody "Failed to get device history")).
Proof. reflexivity. Qed.

(** A rejected clearing update ends Register before anything is
    written. *)
Example register_rejected_clear_on_sample :
  serve (POST (Sample.signed_in (Sample.rejects_at 0 (mkError "FetchError" (Some EmptyString))))
              Sample.browser_request) Sample.tables
  = (Normal (mkResponse 500 (ErrorBody "Failed to add device")),
     mkWorld Sample.tables [ClearCurrent "alice"]
             [("Error adding device:"%string, mkError "FetchError" (Some EmptyString))]).
Proof. reflexivity. Qed.

(** C7.  A List request for which the session lookup resolves no user is
    answered with status 401 and a body holding an [error] field, and
    nothing is sent to the backend: no query is issued (in particular none
    against [device_history]), and the tables and the diagnostic stream
    are left as they were. *)
Theorem list_without_user_is_401 (rt : Runtime) (req : Request) (d : Database) :
  getUser rt = SessionResolved None ->
  serve (GET rt req) d =
    (Normal (mkResponse 401 (ErrorBody "Unauthorized")), mkWorld d [] [])
  /\ filter (fun q => table q =? "device_history")%string
            (issued (snd (serve (GET rt req) d))) = [].
Proof.
  intros Hnone. run_handler. rewrite Hnone. cbn. split; reflexivity.
Qed.

Lemma list_without_user_is_401_witness :
  serve (GET Sample.signed_out Sample.browser_request) Sample.tables =
    (Normal (mkResponse 401 (ErrorBody "Unauthorized")), mkWorld Sample.tables [] []).
Proof.
  apply (list_without_user_is_401 Sample.signed_out Sample.browser_request Sample.tables).
  reflexivity.
Defined.

(** Without a user, Register's [try] block raises the [TypeError] of
    reading [.id] from [null] before anything is sent. *)
Lemma POST_try_without_user (rt : Runtime) (req : Request) (w : World) :
  POST_try rt req None w = (Throw null_id_error, w).
Proof. reflexivity. Qed.

(** Without a user, Remove's [try] block raises [remove_fault] before
    anything is sent. *)
Lemma DELETE_try_without_user (rt : Runtime) (req : Request) (w : World) :
  DELETE_try rt req None w = (Throw (remove_fault req), w).
Proof.
  unfold DELETE_try, remove_fault, req_json, bind.
  destruct (json req) as [e | v]; [reflexivity |].
  destruct v; reflexivity.
Qed.

(** C3 as the code has it.  When the session lookup resolves no user,
    neither Register nor Remove tests for it.  Register's [try] block
    always reads [user.id] and raises the null-dereference [TypeError].
    Remove's does so whenever the request body can be read; a body that
    cannot be read raises its own error first, before the user is looked
    at.  In both handlers the fault surfaces as a 500 response carrying
    the raised error's message, never as the 401 that List sends, and
    nothing has been sent to the backend. *)
Theorem register_remove_without_user_fault (rt : Runtime) (req : Request) (d : Database) :
  getUser rt = SessionResolved None ->
  (* Register *)
  POST_try rt req None (start d) = (Throw null_id_error, start d)
  /\ fst (serve (POST rt req) d) =
       Normal (mkResponse 500
                 (ErrorBody "Cannot read properties of null (reading 'id')"))
  /\ db (snd (serve (POST rt req) d)) = d
  /\ issued (snd (serve (POST rt req) d)) = []
  (* Remove *)
  /\ DELETE_try rt req None (start d) = (Throw (remove_fault req), start d)
  /\ (forall deviceId, body_deviceId req = Some deviceId ->
        remove_fault req = null_id_error)
  /\ fst (serve (DELETE rt req) d) =
       Normal (failure_response "Failed to remove device" (remove_fault req))
  /\ db (snd (serve (DELETE rt req) d)) = d
  /\ issued (snd (serve (DELETE rt req) d)) = []
  (* neither answer is a 401 *)
  /\ (forall r, fst (serve (POST rt req) d) = Normal r -> status r <> 401)
  /\ (forall r, fst (serve (DELETE rt req) d) = Normal r -> status r <> 401).
Proof.
  intros Hnone.
  assert (Hpost : serve (POST rt req) d =
            (Normal (failure_response "Failed to add device" null_id_error),
             mkWorld d [] [("Error adding device:"%string, null_id_error)])).
  { unfold serve, POST, bind, resolve_user. rewrite Hnone. cbn [ret].
    unfold try_catch. rewrite POST_try_without_user. reflexivity. }
  assert (Hdel : serve (DELETE rt req) d =
            (Normal (failure_response "Failed to remove device" (remove_fault req)),
             mkWorld d [] [("Error removing device:"%string, remove_fault req)])).
  { unfold serve, DELETE, bind, resolve_user. rewrite Hnone. cbn [ret].
    unfold try_catch. rewrite DELETE_try_without_user. reflexivity. }
  rewrite Hpost, Hdel. cbn [fst snd db issued].
  do 4 (split; [reflexivity |]).
  split; [apply DELETE_try_without_user |].
  split.
  { intros deviceId Hbody. unfold body_deviceId, remove_fault in *.
    destruct (json req) as [e | v]; [discriminate |].
    destruct v; try discriminate; reflexivity. }
  do 3 (split; [reflexivity |]).
  split; intros r Hr; injection Hr as <-; cbn; discriminate.
Qed.

Lemma register_remove_without_user_fault_witness :
  fst (serve (POST Sample.signed_out Sample.browser_request) Sample.tables) =
    Normal (mkResponse 500
              (ErrorBody "Cannot read properties of null (reading 'id')"))
  /\ fst (serve (DELETE Sample.signed_out Sample.browser_request) Sample.tables) =
    Normal (mkResponse 500
              (ErrorBody "Cannot read properties of null (reading 'id')")).
Proof.
  pose proof (register_remove_without_user_fault
                Sample.signed_out Sample.browser_request Sample.tables eq_refl)
    as (_ & Hpost & _ & _ & _ & _ & Hdel & _).
  split; [exact Hpost | exact Hdel].
Defined.

(** C3 as stated fails for Remove.  Without a user and with a body that
    is not JSON, or that is the JSON value [null], the handler never
    reaches [user.id]: the fault it answers with is the parse error or
    the destructuring error, not the null dereference. *)
Lemma remove_without_user_faults_on_body_first :
  DELETE_try Sample.signed_out Sample.bare_request None (start Sample.tables)
    = (Throw (mkError "SyntaxError" (Some "Unexpected end of JSON input")),
       start Sample.tables)
  /\ mkError "SyntaxError" (Some "Unexpected end of JSON input") <> null_id_error
  /\ fst (serve (DELETE Sample.signed_out Sample.bare_request) Sample.tables)
     = Normal (mkResponse 500 (ErrorBody "Unexpected end of JSON input"))
  /\ DELETE_try Sample.signed_out (mkRequest [] (inr JsNull)) None (start Sample.tables)
     = (Throw destructure_error, start Sample.tables)
  /\ destructure_error <> null_id_error
  /\ fst (serve (DELETE Sample.signed_out (mkRequest [] (inr JsNull))) Sample.tables)
     = Normal (mkResponse 500
         (ErrorBody
            "Cannot destructure property 'deviceId' of '(intermediate value)' as it is null.")).
Proof.
  split; [reflexivity |]. split; [discriminate |]. split; [reflexivity |].
  split; [reflexivity |]. split; [discriminate | reflexivity].
Qed.

(** A [try] block closed by one of the handlers' [catch] blocks always
    completes with a response: the block's own response when it returns,
    the 500 response built from the raised error when it throws. *)
Lemma try_catch_respond_500 (block : Async Response) (label fallback : string) (w : World) :
  exists r,
    fst (try_catch block (respond_500 label fallback) w) = Normal r
    /\ (forall e w', block w = (Throw e, w') -> r = failure_response fallback e)
    /\ (forall r' w', block w = (Normal r', w') -> r = r').
Proof.
  unfold try_catch. destruct (block w) as [[r | e] w'] eqn:Hblock.
  - exists r. split; [reflexivity |]. split.
    + intros e w'' Heq. discriminate.
    + intros r' w'' Heq. now injection Heq as -> _.
  - exists (failure_response fallback e). split; [reflexivity |]. split.
    + intros e' w'' Heq. now injection Heq as -> _.
    + intros r' w'' Heq. discriminate.
Qed.

(** C4 as the code has it.  Once the session lookup has completed (with a
    user or with none), every handler completes with a response.  Any
    failure raised inside its [try] block -- a rejected or failed query,
    the dereference of an absent user, a request body that cannot be
    read -- is turned into a 500 response whose [error] field is the
    raised error's message, or the handler's fallback text when that
    message is empty or missing.  The session lookup itself runs before
    the [try] block and is not covered. *)
Theorem failures_in_try_block_become_500
    (rt : Runtime) (req : Request) (d : Database) (user : option User) :
  getUser rt = SessionResolved user ->
  (* List *)
  (exists r,
     fst (serve (GET rt req) d) = Normal r
     /\ match user with
        | None => r = mkResponse 401 (ErrorBody "Unauthorized")
        | Some u =>
            forall e w', GET_try rt u (start d) = (Throw e, w') ->
              r = failure_response "Failed to get device history" e
        end)
  (* Register *)
  /\ (exists r,
        fst (serve (POST rt req) d) = Normal r
        /\ forall e w', POST_try rt req user (start d) = (Throw e, w') ->
             r = failure_response "Failed to add device" e)
  (* Remove *)
  /\ (exists r,
        fst (serve (DELETE rt req) d) = Normal r
        /\ (forall e w', DELETE_try rt req user (start d) = (Throw e, w') ->
              r = failure_response "Failed to remove device" e)
        /\ (forall e, json req = inl e ->
              r = failure_response "Failed to remove device" e)).
Proof.
  intros Hsession.
  unfold serve, GET, POST, DELETE, bind, resolve_user.
  rewrite Hsession. cbn [ret]. fold (start d).
  split; [| split].
  - destruct user as [u |].
    + destruct (try_catch_respond_500 (GET_try rt u)
                  "Error getting device history:" "Failed to get device history"
                  (start d)) as (r & Hr & Hthrow & _).
      exists r. split; [exact Hr | exact Hthrow].
    + eexists. split; reflexivity.
  - destruct (try_catch_respond_500 (POST_try rt req user)
                "Error adding device:" "Failed to add device" (start d))
      as (r & Hr & Hthrow & _).
    exists r. split; [exact Hr | exact Hthrow].
  - destruct (try_catch_respond_500 (DELETE_try rt req user)
                "Error removing device:" "Failed to remove device" (start d))
      as (r & Hr & Hthrow & _).
    exists r. split; [exact Hr |]. split; [exact Hthrow |].
    intros e Hjson. apply (Hthrow e (start d)).
    unfold DELETE_try, bind, req_json. rewrite Hjson. reflexivity.
Qed.

Lemma failures_in_try_block_become_500_witness :
  exists r,
    fst (serve (DELETE (Sample.signed_in Sample.always_applied) Sample.bare_request)
               Sample.tables) = Normal r
    /\ r = mkResponse 500 (ErrorBody "Unexpected end of JSON input").
Proof.
  destruct (failures_in_try_block_become_500
              (Sample.signed_in Sample.always_applied) Sample.bare_request
              Sample.tables (Some Sample.alice) eq_refl)
    as (_ & _ & r & Hr & _ & Hjson).
  exists r. split; [exact Hr |].
  exact (Hjson _ eq_refl).
Defined.

(** C4 as stated fails: a failure of the session lookup is raised inside
    each handler, ahead of its [try] block, and leaves the handler as an
    exception instead of a 500 response. *)
Lemma session_failure_escapes_handlers :
  fst (serve (GET Sample.no_session_service Sample.browser_request) Sample.tables)
    = Throw (mkError "Error" (Some "supabaseUrl and supabaseKey are required!"))
  /\ fst (serve (POST Sample.no_session_service Sample.browser_request) Sample.tables)
    = Throw (mkError "Error" (Some "supabaseUrl and supabaseKey are required!"))
  /\ fst (serve (DELETE Sample.no_session_service Sample.browser_request) Sample.tables)
    = Throw (mkError "Error" (Some "supabaseUrl and supabaseKey are required!")).
Proof. repeat split; reflexivity. Qed.

(** C2 as the code has it.  With a resolved user, when one of Register's
    three persistence requests is rejected with an exception, or the
    device insert reports an error, no later step is sent and the answer
    is a 500 response carrying that error's message (the text
    ['Failed to add device'] when the message is empty or missing).  An
    error that the audit insert only reports in its result is not looked
    at: the call still returns success. *)
Theorem register_abort_on_failure
    (rt : Runtime) (req : Request) (d : Database) (u : User) :
  getUser rt = SessionResolved (Some u) ->
  (forall k e, aborting_failure rt = Some (k, e) ->
     fst (serve (POST rt req) d) =
       Normal (failure_response "Failed to add device" e)
     /\ issued (snd (serve (POST rt req) d)) =
          firstn (S k) (register_steps rt req u)
     /\ (k < 2 -> security_logs (db (snd (serve (POST rt req) d))) = security_logs d))
  /\ (forall e, aborting_failure rt = None -> backend rt 2 = Reported e ->
        fst (serve (POST rt req) d) = Normal (registered (uuidv4 rt))
        /\ issued (snd (serve (POST rt req) d)) = register_steps rt req u).
Proof.
  intros Hsession. unfold aborting_failure, register_steps, new_device, added_entry.
  split.
  - intros k e Habort. by_answers rt; run_handler; rewrite Hsession; use_answers;
      try discriminate; injection Habort as <- <-;
      (split; [reflexivity | split; [reflexivity | intros; first [reflexivity | lia]]]).
  - intros e Hnone Haudit. by_answers rt; run_handler; rewrite Hsession; use_answers;
      try discriminate; split; reflexivity.
Qed.

Lemma register_abort_on_failure_witness :
  fst (serve (POST (Sample.signed_in (Sample.reports_at 1 Sample.permission_denied))
                   Sample.browser_request) Sample.tables) =
    Normal (mkResponse 500 (ErrorBody "permission denied for table device_history"))
  /\ security_logs
       (db (snd (serve (POST (Sample.signed_in (Sample.reports_at 1 Sample.permission_denied))
                             Sample.browser_request) Sample.tables))) = [].
Proof.
  destruct (register_abort_on_failure
              (Sample.signed_in (Sample.reports_at 1 Sample.permission_denied))
              Sample.browser_request Sample.tables Sample.alice eq_refl)
    as [Habort _].
  destruct (Habort 1 Sample.permission_denied eq_refl) as (Hresp & _ & Hlogs).
  split; [exact Hresp | apply Hlogs; lia].
Defined.

(** C2 as stated fails.  When the clearing update reports an error, the
    insert and the audit entry are still sent and the call answers
    success; when the audit insert reports an error, the call answers
    success as well.  Neither failure produces a 500 response. *)
Lemma register_reported_errors_do_not_abort :
  (backend (Sample.signed_in (Sample.reports_at 0 Sample.permission_denied)) 0
     = Reported Sample.permission_denied
   /\ fst (serve (POST (Sample.signed_in (Sample.reports_at 0 Sample.permission_denied))
                       Sample.browser_request) Sample.tables)
      = Normal (mkResponse 200 (SuccessBody (Some "dev-2")))
   /\ map table
        (issued (snd (serve (POST (Sample.signed_in
                                     (Sample.reports_at 0 Sample.permission_denied))
                                  Sample.browser_request) Sample.tables)))
      = ["device_history"; "device_history"; "security_logs"]%string)
  /\ (backend (Sample.signed_in (Sample.reports_at 2 Sample.permission_denied)) 2
        = Reported Sample.permission_denied
      /\ fst (serve (POST (Sample.signed_in (Sample.reports_at 2 Sample.permission_denied))
                          Sample.browser_request) Sample.tables)
         = Normal (mkResponse 200 (SuccessBody (Some "dev-2")))).
Proof. repeat split; reflexivity. Qed.

(** When the backend does carry out the clearing update, a Register call
    that answers success leaves the earlier rows with the user's flags
    cleared, followed by the new row, which is current. *)
Lemma register_single_current_when_cleared
    (rt : Runtime) (req : Request) (d : Database) (deviceId : string) :
  backend rt 0 = Applied ->
  fst (serve (POST rt req) d) = Normal (registered deviceId) ->
  exists u row,
    getUser rt = SessionResolved (Some u)
    /\ device_history (db (snd (serve (POST rt req) d))) =
         map (fun x => if owned_by (id u) x then set_not_current x else x)
             (device_history d) ++ [row]
    /\ row = new_device rt req u
    /\ device_id row = deviceId
    /\ is_current row = true
    /\ (forall x, In x (map (fun x => if owned_by (id u) x then set_not_current x else x)
                            (device_history d)) ->
                  user_id x = id u -> is_current x = false).
Proof.
  intros Hclear Hok.
  destruct (getUser rt) as [[u |] | e] eqn:Hsession.
  - exists u, (new_device rt req u). split; [reflexivity |].
    revert Hok. unfold new_device.
    by_answers rt; run_handler; rewrite Hsession; use_answers;
      try discriminate; intros Hok; injection Hok as <-.
    all: (split; [reflexivity |]); (split; [reflexivity |]);
         (split; [reflexivity |]); (split; [reflexivity |]).
    all: intros x Hin Howner; apply in_map_iff in Hin as (y & <- & _);
         unfold owned_by in *; destruct (user_id y =? id u)%string eqn:Hy;
         [ reflexivity | ].
    all: cbn in Howner; apply String.eqb_neq in Hy; contradiction.
  - revert Hok. run_handler. rewrite Hsession. cbn. discriminate.
  - revert Hok. run_handler. rewrite Hsession. cbn. discriminate.
Qed.

(** C1 on the code.  The clearing update reports an error, which the
    handler never looks at; the insert goes through and the call answers
    success.  Alice's earlier row is still flagged current next to the new
    one. *)
Theorem register_success_leaves_stale_current :
  fst (serve (POST (Sample.signed_in (Sample.reports_at 0 Sample.permission_denied))
                   Sample.browser_request) Sample.tables)
    = Normal (registered "dev-2")
  /\ device_history
       (db (snd (serve (POST (Sample.signed_in
                                (Sample.reports_at 0 Sample.permission_denied))
                             Sample.browser_request) Sample.tables)))
     = [ Sample.laptop; Sample.phone_of_bob;
         mkDevice "alice" "dev-2" "Chrome on Windows" (Some "Chrome") (Some "Windows")
                  (Some "10.0.0.7") true "2024-02-01T10:00:00.000Z" ]
  /\ user_id Sample.laptop = "alice"%string
  /\ device_id Sample.laptop <> "dev-2"%string
  /\ is_current Sample.laptop = true.
Proof.
  repeat split; try reflexivity. discriminate.
Qed.

(** C5 as the code has it.  A Register call that answers success has sent
    exactly one insert to the audit table; its row has type
    [new_device_added] and its details name the device identifier
    returned in the response.  The row is in the table afterwards when
    the backend carried that insert out; the handler does not look at the
    insert's result, so otherwise the table is as it was. *)
Theorem register_success_sends_one_audit_entry
    (rt : Runtime) (req : Request) (d : Database) (deviceId : string) :
  fst (serve (POST rt req) d) = Normal (registered deviceId) ->
  exists u row,
    getUser rt = SessionResolved (Some u)
    /\ filter is_audit_insert (issued (snd (serve (POST rt req) d))) = [InsertLog row]
    /\ log_type row = new_device_added
    /\ details_device_id row = JsString deviceId
    /\ log_user_id row = id u
    /\ security_logs (tables_after (POST rt req) d) =
         match backend rt 2 with
         | Applied => security_logs d ++ [row]
         | _ => security_logs d
         end.
Proof.
  intros Hok. unfold tables_after.
  destruct (getUser rt) as [[u |] | e] eqn:Hsession.
  - exists u, (added_entry rt req u). split; [reflexivity |].
    revert Hok. unfold added_entry.
    by_answers rt; run_handler; rewrite Hsession; use_answers;
      try discriminate; intros Hok; injection Hok as <-;
      repeat (split; [reflexivity |]); reflexivity.
  - revert Hok. run_handler. rewrite Hsession. cbn. discriminate.
  - revert Hok. run_handler. rewrite Hsession. cbn. discriminate.
Qed.

Lemma register_success_sends_one_audit_entry_witness :
  exists row,
    security_logs (tables_after (POST (Sample.signed_in Sample.always_applied)
                                      Sample.browser_request) Sample.tables) = [row]
    /\ log_type row = new_device_added
    /\ details_device_id row = JsString "dev-2".
Proof.
  destruct (register_success_sends_one_audit_entry
              (Sample.signed_in Sample.always_applied) Sample.browser_request
              Sample.tables "dev-2" eq_refl)
    as (u & row & _ & _ & Htype & Hid & _ & Hlogs).
  exists row. split; [exact Hlogs |]. split; [exact Htype | exact Hid].
Defined.

(** C5 as stated fails.  The audit insert reports an error; the call
    answers success with the new identifier, and the audit table holds no
    entry for it. *)
Lemma register_success_without_audit_entry :
  fst (serve (POST (Sample.signed_in (Sample.reports_at 2 Sample.permission_denied))
                   Sample.browser_request) Sample.tables)
    = Normal (registered "dev-2")
  /\ security_logs
       (tables_after (POST (Sample.signed_in (Sample.reports_at 2 Sample.permission_denied))
                           Sample.browser_request) Sample.tables)
     = security_logs Sample.tables
  /\ security_logs Sample.tables = [].
Proof. repeat split; reflexivity. Qed.

(** C9.  With a resolved user and no aborting persistence failure, a
    Register call whose user-agent yields neither a browser name nor an
    OS name answers success all the same, and the row it stores is named
    ["undefined on undefined"], with both name columns empty. *)
Theorem register_without_agent_names
    (rt : Runtime) (req : Request) (d : Database) (u : User) :
  getUser rt = SessionResolved (Some u) ->
  browser_name (UAParser rt (headers_get req "user-agent")) = None ->
  os_name (UAParser rt (headers_get req "user-agent")) = None ->
  aborting_failure rt = None ->
  fst (serve (POST rt req) d) = Normal (registered (uuidv4 rt))
  /\ exists earlier row,
       device_history (tables_after (POST rt req) d) = earlier ++ [row]
       /\ user_id row = id u
       /\ device_id row = uuidv4 rt
       /\ device_name row = "undefined on undefined"%string
       /\ browser row = None
       /\ os row = None.
Proof.
  intros Hsession Hbrowser Hos Hnone. unfold tables_after, aborting_failure in *.
  by_answers rt; run_handler; rewrite Hsession; use_answers; try discriminate;
    rewrite Hbrowser, Hos; (split; [reflexivity |]);
    eexists; eexists; (split; [reflexivity |]); cbn; repeat split; reflexivity.
Qed.

Lemma register_without_agent_names_witness :
  fst (serve (POST (mkRuntime (SessionResolved (Some Sample.alice)) Sample.always_applied
                              Sample.no_names "dev-2" Sample.stamps)
                   Sample.bare_request) Sample.tables)
    = Normal (registered "dev-2")
  /\ exists earlier row,
       device_history
         (tables_after (POST (mkRuntime (SessionResolved (Some Sample.alice))
                                        Sample.always_applied
                                        Sample.no_names "dev-2" Sample.stamps)
                             Sample.bare_request) Sample.tables) = earlier ++ [row]
       /\ user_id row = "alice"%string
       /\ device_id row = "dev-2"%string
       /\ device_name row = "undefined on undefined"%string
       /\ browser row = None
       /\ os row = None.
Proof.
  exact (register_without_agent_names
           (mkRuntime (SessionResolved (Some Sample.alice)) Sample.always_applied
                      Sample.no_names "dev-2" Sample.stamps)
           Sample.bare_request Sample.tables Sample.alice
           eq_refl eq_refl eq_refl eq_refl).
Defined.


(** One Remove call against a backend that carries out both of its
    queries. *)
Lemma remove_applied
    (rt : Runtime) (req : Request) (d : Database) (u : User) (deviceId : JsValue) :
  getUser rt = SessionResolved (Some u) ->
  body_deviceId req = Some deviceId ->
  backend rt 0 = Applied ->
  backend rt 1 = Applied ->
  serve (DELETE rt req) d =
    (Normal removed,
     mkWorld
       (mkDatabase
          (filter (fun x => negb (targeted (id u) deviceId x)) (device_history d))
          (security_logs d ++ [removed_entry rt req u deviceId]))
       [DeleteDevice (id u) deviceId; InsertLog (removed_entry rt req u deviceId)]
       []).
Proof.
  intros Hsession Hbody Hdelete Haudit.
  unfold body_deviceId, removed_entry in *.
  run_handler. rewrite Hsession.
  destruct (json req) as [e | v]; [discriminate |].
  destruct v; try discriminate; injection Hbody as <-; use_answers; reflexivity.
Qed.



(* ===================================================================== *)
(** ** Properties of the error boundary                                   *)
(* ===================================================================== *)

Section BoundaryProperties.

Context {C P : Type}.
Implicit Types (p : @ErrorBoundary.Props C P) (e : JsError).

Import ErrorBoundary.

(** What an errored boundary shows: the fallback when the test
    [if (this.props.fallback)] passes, the default panel otherwise. *)
Lemma render_errored p e :
  render p (getDerivedStateFromError e) =
    if truthy_node (fallback p) then fallback p
    else panel (getDerivedStateFromError e).
Proof. reflexivity. Qed.

(** C8 as the code has it.  The boundary has two states, told apart by
    [hasError].
    - Normal: [render] returns the children, and a pass in which they
      render leaves the boundary as it is.
    - A descendant throwing during a pass moves the boundary to the
      errored state, which stores the thrown error; the pass ends with a
      node to show, not with the exception: the caller's fallback when
      that prop is truthy, the default panel with the error's message and
      a retry button when it is omitted or falsy.
    - While errored the children are not attempted and the state stays
      errored.
    - The panel's button invokes [handleRetry]; that clears the stored
      error and returns to the normal state, so the next pass attempts
      the children again: it shows them when they render and is errored
      anew when they throw. *)
Theorem boundary_is_two_state_machine p e (stored : option JsError)
    (lines : list (string * JsError)) (i : @Instance C P) (a : Attempt) :
  (* normal *)
  hasError state = false
  /\ render p (mkState false stored) = children p
  /\ render_pass (mkInstance p (mkState false stored) lines) Renders =
       (mkInstance p (mkState false stored) lines, children p)
  (* normal -> errored *)
  /\ render_pass (mkInstance p (mkState false stored) lines) (Throws e) =
       (mkInstance p (mkState true (Some e)) (lines ++ [("Uncaught error:"%string, e)]),
        if truthy_node (fallback p) then fallback p
        else panel (mkState true (Some e)))
  /\ panel_message (mkState true (Some e)) =
       or_default (message e) "An unexpected error occurred"
  (* errored stays errored *)
  /\ render_pass (mkInstance p (mkState true stored) lines) a =
       (mkInstance p (mkState true stored) lines,
        if truthy_node (fallback p) then fallback p
        else panel (mkState true stored))
  (* retry *)
  /\ buttons (panel (mkState true stored) : ReactNode C P) = [handleRetry_ref]
  /\ current (invoke i handleRetry_ref) = mkState false None
  /\ props (invoke i handleRetry_ref) = props i
  /\ render_pass (invoke i handleRetry_ref) Renders =
       (invoke i handleRetry_ref, children (props i))
  /\ current (fst (render_pass (invoke i handleRetry_ref) (Throws e))) =
       mkState true (Some e).
Proof.
  repeat split; reflexivity.
Qed.

(** C10.  [withErrorBoundary(Component, fallback)] applied to [given]
    returns an [ErrorBoundary] element whose [fallback] is the supplied
    value and whose only child is [Component] with the props [given].
    Mounted, that boundary shows the component with those props; if the
    component throws it shows the supplied fallback (when truthy) in its
    place. *)
Theorem withErrorBoundary_wraps_component
    (Component : C) (supplied : ReactNode C P) (given : P) e :
  withErrorBoundary Component supplied given =
    RErrorBoundary supplied (RComponent Component given)
  /\ mount_element (withErrorBoundary Component supplied given) =
       Some (mount (mkProps (RComponent Component given) supplied))
  /\ snd (render_pass (mount (mkProps (RComponent Component given) supplied)) Renders) =
       RComponent Component given
  /\ snd (render_pass (mount (mkProps (RComponent Component given) supplied)) (Throws e)) =
       if truthy_node supplied then supplied
       else panel (getDerivedStateFromError e).
Proof.
  repeat split; reflexivity.
Qed.

End BoundaryProperties.

(** C8 as stated fails for a fallback that is supplied but falsy.  The
    number [0] (which would be shown as the text "0"), the empty string
    and [null] are all passed over: after a descendant has thrown, the
    boundary shows the default panel, not the supplied node. *)
Lemma falsy_fallback_shows_panel :
  snd (ErrorBoundary.render_pass
         (ErrorBoundary.mount
            (ErrorBoundary.mkProps (RComponent "Widget"%string tt) (RNumber 0)))
         (ErrorBoundary.Throws (mkError "Error" (Some "boom"%string))))
    = ErrorBoundary.panel (ErrorBoundary.mkState true (Some (mkError "Error" (Some "boom"%string))))
  /\ snd (ErrorBoundary.render_pass
            (ErrorBoundary.mount
               (ErrorBoundary.mkProps (RComponent "Widget"%string tt) (RNumber 0)))
            (ErrorBoundary.Throws (mkError "Error" (Some "boom"%string))))
     <> RNumber 0
  /\ snd (ErrorBoundary.render_pass
            (ErrorBoundary.mount
               (ErrorBoundary.mkProps (RComponent "Widget"%string tt) (RString EmptyString)))
            (ErrorBoundary.Throws (mkError "Error" (Some "boom"%string))))
     <> RString EmptyString
  /\ snd (ErrorBoundary.render_pass
            (ErrorBoundary.mount
               (ErrorBoundary.mkProps (RComponent "Widget"%string tt) RNull))
            (ErrorBoundary.Throws (mkError "Error" (Some "boom"%string))))
     <> RNull.
Proof.
  split; [reflexivity |]. repeat split; discriminate.
Qed.

(* ===================================================================== *)
(** ** Further properties of List                                         *)
(* ===================================================================== *)

(** X1.  List only reads.  Whatever the session lookup and the backend
    answer, the tables after the call are the tables before it, and the
    only query ever sent is one select on [device_history] for the
    resolved user's own identifier. *)
Theorem list_only_reads (rt : Runtime) (req : Request) (d : Database) :
  tables_after (GET rt req) d = d
  /\ issued (snd (serve (GET rt req) d)) =
       match getUser rt with
       | SessionResolved (Some u) => [SelectDevices (id u)]
       | _ => []
       end.
Proof.
  unfold tables_after. run_handler.
  destruct (getUser rt) as [[u |] | e]; cbn; try (split; reflexivity).
  destruct (backend rt 0); cbn; split; reflexivity.
Qed.

Lemma insert_desc_perm (x : DeviceInfo) (l : list DeviceInfo) :
  Permutation (x :: l) (insert_desc x l).
Proof.
  induction l as [| y l IH]; cbn; [reflexivity |].
  destruct (last_active y <? last_active x)%string; [reflexivity |].
  rewrite perm_swap. now apply perm_skip.
Qed.

Lemma order_desc_perm (l : list DeviceInfo) :
  Permutation l (order_desc l).
Proof.
  induction l as [| x l IH]; cbn; [reflexivity |].
  rewrite <- insert_desc_perm. now apply perm_skip.
Qed.

Lemma ltb_asym (a b : string) :
  (a <? b)%string = true -> (b <? a)%string = false.
Proof.
  unfold String.ltb. rewrite (String.compare_antisym a b).
  destruct (String.compare b a); cbn; intros H; try discriminate; reflexivity.
Qed.

Lemma insert_desc_HdRel (a x : DeviceInfo) (l : list DeviceInfo) :
  not_older a x -> HdRel not_older a l -> HdRel not_older a (insert_desc x l).
Proof.
  intros Hax Hl. destruct l as [| y l]; cbn.
  - now constructor.
  - destruct (last_active y <? last_active x)%string; constructor; trivial.
    now inversion Hl.
Qed.

Lemma insert_desc_sorted (x : DeviceInfo) (l : list DeviceInfo) :
  Sorted not_older l -> Sorted not_older (insert_desc x l).
Proof.
  induction 1 as [| y l Hsorted IH Hhd]; cbn.
  - repeat constructor.
  - destruct (last_active y <? last_active x)%string eqn:Hyx.
    + constructor; [now constructor |].
      constructor. unfold not_older. now apply ltb_asym.
    + constructor; [exact IH |].
      now apply insert_desc_HdRel.
Qed.

Lemma order_desc_sorted (l : list DeviceInfo) :
  Sorted not_older (order_desc l).
Proof.
  induction l as [| x l IH]; cbn; [constructor |].
  now apply insert_desc_sorted.
Qed.

(** X2.  When the user is resolved and the select is carried out, List
    answers 200 with that user's rows and nothing else: the listing is a
    rearrangement of exactly the rows of the table owned by the user, and
    it is ordered by [last_active], newest first. *)
Theorem list_returns_own_rows_newest_first
    (rt : Runtime) (req : Request) (d : Database) (u : User) :
  getUser rt = SessionResolved (Some u) ->
  backend rt 0 = Applied ->
  exists rows,
    fst (serve (GET rt req) d) = Normal (mkResponse 200 (DevicesBody (Some rows)))
    /\ Permutation (filter (owned_by (id u)) (device_history d)) rows
    /\ Sorted not_older rows
    /\ (forall x, In x rows -> user_id x = id u /\ In x (device_history d)).
Proof.
  intros Hsession Hselect.
  exists (order_desc (filter (owned_by (id u)) (device_history d))).
  split; [| split; [| split]].
  - run_handler. rewrite Hsession. cbn. rewrite Hselect. reflexivity.
  - apply order_desc_perm.
  - apply order_desc_sorted.
  - intros x Hin.
    apply (Permutation_in x (Permutation_sym (order_desc_perm _))) in Hin.
    apply filter_In in Hin as [Hin Howned].
    split; [| exact Hin]. now apply String.eqb_eq.
Qed.

Lemma list_returns_own_rows_newest_first_witness :
  exists rows,
    fst (serve (GET (Sample.signed_in Sample.always_applied) Sample.browser_request)
               Sample.tables)
      = Normal (mkResponse 200 (DevicesBody (Some rows)))
    /\ Permutation (filter (owned_by "alice") (device_history Sample.tables)) rows.
Proof.
  destruct (list_returns_own_rows_newest_first
              (Sample.signed_in Sample.always_applied) Sample.browser_request
              Sample.tables Sample.alice eq_refl eq_refl)
    as (rows & Hresp & Hperm & _).
  exists rows. split; [exact Hresp | exact Hperm].
Defined.

(* ===================================================================== *)
(** ** What the handlers can answer, and what they log                    *)
(* ===================================================================== *)

(** Case analysis on the session lookup and the backend's answers,
    followed by evaluation of the run. *)
Ltac by_cases rt :=
  let Hs := fresh "Hsession" in
  destruct (getUser rt) as [[?u |] | ?e] eqn:Hs;
  by_answers rt; run_handler; rewrite ?Hs in *; use_answers.

(** X3.  The only answers: List gives 200 with a [devices] body, 401
    (exactly when no user is resolved) or 500 with an [error] body;
    Register gives 200 with the generated identifier or 500 with an
    [error] body; Remove gives 200 or 500 with an [error] body.  Register
    and Remove never answer 401, and a handler ends with an exception
    only when the session lookup raised it. *)
Theorem handler_answers (rt : Runtime) (req : Request) (d : Database) :
  match fst (serve (GET rt req) d) with
  | Normal r =>
      (status r = 200 /\ exists rows, body r = DevicesBody rows)
      \/ (r = mkResponse 401 (ErrorBody "Unauthorized")
          /\ getUser rt = SessionResolved None)
      \/ (status r = 500 /\ exists m, body r = ErrorBody m)
  | Throw e => getUser rt = SessionFailed e
  end
  /\ match fst (serve (POST rt req) d) with
     | Normal r =>
         r = registered (uuidv4 rt)
         \/ (status r = 500 /\ exists m, body r = ErrorBody m)
     | Throw e => getUser rt = SessionFailed e
     end
  /\ match fst (serve (DELETE rt req) d) with
     | Normal r =>
         r = removed
         \/ (status r = 500 /\ exists m, body r = ErrorBody m)
     | Throw e => getUser rt = SessionFailed e
     end.
Proof.
  split; [| split].
  - run_handler. destruct (getUser rt) as [[u |] | e]; cbn.
    + destruct (backend rt 0); cbn; eauto 6.
    + right. left. split; reflexivity.
    + reflexivity.
  - by_cases rt; cbn; solve [reflexivity | left; reflexivity | right; eauto].
  - run_handler. destruct (getUser rt) as [[u |] | e]; cbn; [| | reflexivity];
      (destruct (json req) as [e | v]; cbn; [right; eauto |]);
      (destruct v; cbn; try (right; solve [eauto]));
      try (destruct (backend rt 0); cbn; try (right; solve [eauto]);
           destruct (backend rt 1); cbn; solve [left; reflexivity | right; eauto]).
Qed.

(** X4.  Every 500 answer is logged, once, and nothing else is: a run of
    any of the three handlers leaves one line on the diagnostic stream
    when it answers 500 -- under that handler's label, with the very
    error whose message is returned -- and leaves the stream empty when
    it answers 200 or 401 or ends with the session lookup's exception. *)
Theorem failures_are_logged_once (rt : Runtime) (req : Request) (d : Database) :
  logged_once "Error getting device history:" "Failed to get device history"
              (serve (GET rt req) d)
  /\ logged_once "Error adding device:" "Failed to add device"
                 (serve (POST rt req) d)
  /\ logged_once "Error removing device:" "Failed to remove device"
                 (serve (DELETE rt req) d).
Proof.
  unfold logged_once. split; [| split].
  - run_handler. destruct (getUser rt) as [[u |] | e]; cbn; try reflexivity.
    destruct (backend rt 0); cbn; solve [reflexivity | eauto].
  - by_cases rt; cbn; solve [reflexivity | eauto].
  - run_handler. destruct (getUser rt) as [[u |] | e]; cbn; [| | reflexivity];
      (destruct (json req) as [e | v]; cbn; [solve [eauto] |]);
      (destruct v; cbn; try solve [eauto]);
      try (destruct (backend rt 0); cbn; try solve [eauto];
           destruct (backend rt 1); cbn; solve [reflexivity | eauto]).
Qed.

(* ===================================================================== *)
(** ** Further properties of Register                                     *)
(* ===================================================================== *)

Lemma owned_by_set_not_current (uid : string) (x : DeviceInfo) :
  owned_by uid (set_not_current x) = owned_by uid x.
Proof. reflexivity. Qed.

Lemma foreign_cleared (uid : string) (rows : list DeviceInfo) :
  filter (foreign uid) (cleared uid rows) = filter (foreign uid) rows.
Proof.
  unfold cleared, foreign. induction rows as [| x rows IH]; [reflexivity |].
  cbn [map filter]. destruct (owned_by uid x) eqn:Hx.
  - rewrite owned_by_set_not_current, Hx. exact IH.
  - rewrite Hx. cbn [negb]. now rewrite IH.
Qed.

Lemma current_rows_cleared (uid : string) (rows : list DeviceInfo) :
  current_rows uid (cleared uid rows) = [].
Proof.
  unfold current_rows, cleared. induction rows as [| x rows IH]; [reflexivity |].
  cbn [map filter]. destruct (owned_by uid x) eqn:Hx.
  - rewrite owned_by_set_not_current, Hx. exact IH.
  - rewrite Hx. exact IH.
Qed.

Lemma set_not_current_cleared (uid : string) (rows : list DeviceInfo) :
  map set_not_current (cleared uid rows) = map set_not_current rows.
Proof.
  unfold cleared. rewrite map_map. apply map_ext.
  intros x. now destruct (owned_by uid x).
Qed.

Lemma length_cleared (uid : string) (rows : list DeviceInfo) :
  length (cleared uid rows) = length rows.
Proof. apply length_map. Qed.

(** The tables a Register call by a resolved user leaves behind, for
    every way the backend may answer. *)
Lemma register_tables (rt : Runtime) (req : Request) (d : Database) (u : User) :
  getUser rt = SessionResolved (Some u) ->
  tables_after (POST rt req) d =
    mkDatabase
      ((if flags_cleared rt then cleared (id u) (device_history d)
        else device_history d)
       ++ (if device_stored rt then [new_device rt req u] else []))
      (security_logs d
       ++ (if entry_stored rt then [added_entry rt req u] else [])).
Proof.
  intros Hsession.
  unfold tables_after, flags_cleared, entry_stored, device_stored, cleared,
    new_device, added_entry.
  by_answers rt; run_handler; rewrite Hsession; use_answers;
    cbn [andb]; rewrite ?app_nil_r; destruct d; cbn [device_history security_logs];
    reflexivity.
Qed.

Lemma foreign_new_device (rt : Runtime) (req : Request) (u : User) :
  foreign (id u) (new_device rt req u) = false.
Proof.
  unfold foreign, owned_by, new_device. cbn [user_id].
  now rewrite String.eqb_refl.
Qed.

(** X5.  Register never touches another user's rows.  Whatever the
    backend answers, the rows of the table that do not belong to the
    caller are the same after the call as before it, in the same order. *)
Theorem register_leaves_other_users_rows
    (rt : Runtime) (req : Request) (d : Database) (u : User) :
  getUser rt = SessionResolved (Some u) ->
  filter (foreign (id u)) (device_history (tables_after (POST rt req) d))
  = filter (foreign (id u)) (device_history d).
Proof.
  intros Hsession. rewrite (register_tables rt req d u Hsession).
  cbn [device_history]. rewrite filter_app.
  assert (Htail : filter (foreign (id u))
                    (if device_stored rt then [new_device rt req u] else []) = []).
  { destruct (device_stored rt); [| reflexivity].
    cbn [filter]. now rewrite foreign_new_device. }
  rewrite Htail, app_nil_r.
  destruct (flags_cleared rt); [apply foreign_cleared | reflexivity].
Qed.

Lemma register_leaves_other_users_rows_witness :
  filter (foreign "alice")
    (device_history
       (tables_after (POST (Sample.signed_in Sample.always_applied)
                           Sample.browser_request) Sample.tables))
  = [Sample.phone_of_bob].
Proof.
  exact (register_leaves_other_users_rows
           (Sample.signed_in Sample.always_applied) Sample.browser_request
           Sample.tables Sample.alice eq_refl).
Defined.

(** X6.  Register never deletes, reorders or rewrites a stored row: after
    the call the table starts with the rows it had, each unchanged in every
    column except possibly [is_current], and holds at most one row more. *)
Theorem register_keeps_existing_rows
    (rt : Runtime) (req : Request) (d : Database) (u : User) :
  getUser rt = SessionResolved (Some u) ->
  map set_not_current
      (firstn (length (device_history d))
              (device_history (tables_after (POST rt req) d)))
  = map set_not_current (device_history d)
  /\ length (device_history d)
     <= length (device_history (tables_after (POST rt req) d))
     <= S (length (device_history d)).
Proof.
  intros Hsession. rewrite (register_tables rt req d u Hsession).
  cbn [device_history].
  destruct (flags_cleared rt).
  - rewrite <- (length_cleared (id u) (device_history d)) at 1.
    rewrite firstn_app, firstn_all, Nat.sub_diag, firstn_O, app_nil_r.
    rewrite set_not_current_cleared. split; [reflexivity |].
    rewrite length_app, length_cleared.
    destruct (device_stored rt); cbn [length]; lia.
  - rewrite firstn_app, firstn_all, Nat.sub_diag, firstn_O, app_nil_r.
    split; [reflexivity |].
    rewrite length_app. destruct (device_stored rt); cbn [length]; lia.
Qed.

Lemma register_keeps_existing_rows_witness :
  map device_id
      (firstn 2 (device_history
                   (tables_after (POST (Sample.signed_in Sample.always_applied)
                                       Sample.browser_request) Sample.tables)))
  = ["dev-1"; "dev-9"]%string.
Proof.
  destruct (register_keeps_existing_rows
              (Sample.signed_in Sample.always_applied) Sample.browser_request
              Sample.tables Sample.alice eq_refl) as [Hrows _].
  apply (f_equal (map device_id)) in Hrows.
  rewrite !map_map in Hrows. exact Hrows.
Defined.

(** X7.  The clear-then-insert sequence is not atomic.  When the clearing
    update has been carried out and the device insert then fails, the call
    answers 500 and the caller is left with no current device at all --
    whichever row was current before -- and with no audit entry. *)
Theorem register_failed_insert_leaves_no_current
    (rt : Runtime) (req : Request) (d : Database) (u : User) (e : JsError) :
  getUser rt = SessionResolved (Some u) ->
  backend rt 0 = Applied ->
  aborting_failure rt = Some (1, e) ->
  fst (serve (POST rt req) d) = Normal (failure_response "Failed to add device" e)
  /\ current_rows (id u) (device_history (tables_after (POST rt req) d)) = []
  /\ security_logs (tables_after (POST rt req) d) = security_logs d.
Proof.
  intros Hsession Hclear Habort. split.
  - revert Habort. unfold aborting_failure.
    by_answers rt; run_handler; rewrite Hsession; use_answers;
      try discriminate; intros Habort; injection Habort as <-; reflexivity.
  - rewrite (register_tables rt req d u Hsession). cbn [device_history security_logs].
    unfold flags_cleared, entry_stored, device_stored, aborting_failure in *.
    rewrite Hclear in *.
    destruct (backend rt 1); try (destruct (backend rt 2); discriminate);
      cbn [andb]; cbv iota; rewrite ?app_nil_r; split;
      solve [apply current_rows_cleared | reflexivity].
Qed.

Lemma register_failed_insert_leaves_no_current_witness :
  current_rows "alice" (device_history Sample.tables) = [Sample.laptop]
  /\ current_rows "alice"
       (device_history
          (tables_after (POST (Sample.signed_in (Sample.reports_at 1 Sample.permission_denied))
                              Sample.browser_request) Sample.tables)) = [].
Proof.
  split; [reflexivity |].
  exact (proj1 (proj2 (register_failed_insert_leaves_no_current
                         (Sample.signed_in (Sample.reports_at 1 Sample.permission_denied))
                         Sample.browser_request Sample.tables Sample.alice
                         Sample.permission_denied eq_refl eq_refl eq_refl))).
Defined.

(** X8.  No audit entry without the device.  Whatever the backend
    answers, a Register call either leaves the audit table as it was, or
    appends exactly its one [new_device_added] entry -- and then the
    device row is in the table and the call answers success. *)
Theorem register_entry_only_with_device
    (rt : Runtime) (req : Request) (d : Database) (u : User) :
  getUser rt = SessionResolved (Some u) ->
  security_logs (tables_after (POST rt req) d) = security_logs d
  \/ (security_logs (tables_after (POST rt req) d)
        = security_logs d ++ [added_entry rt req u]
      /\ In (new_device rt req u) (device_history (tables_after (POST rt req) d))
      /\ fst (serve (POST rt req) d) = Normal (registered (uuidv4 rt))).
Proof.
  intros Hsession. rewrite (register_tables rt req d u Hsession).
  cbn [device_history security_logs].
  unfold entry_stored, device_stored.
  by_answers rt; cbn [andb]; cbv iota; rewrite ?app_nil_r;
    try (left; reflexivity);
    right; (split; [reflexivity |]);
    (split; [apply in_or_app; right; left; reflexivity |]);
    run_handler; rewrite Hsession; use_answers; reflexivity.
Qed.

Lemma register_entry_only_with_device_witness :
  security_logs
    (tables_after (POST (Sample.signed_in (Sample.rejects_at 1 Sample.permission_denied))
                        Sample.browser_request) Sample.tables) = [].
Proof.
  destruct (register_entry_only_with_device
              (Sample.signed_in (Sample.rejects_at 1 Sample.permission_denied))
              Sample.browser_request Sample.tables Sample.alice eq_refl)
    as [Hsame | [Hgrown _]].
  - exact Hsame.
  - discriminate Hgrown.
Defined.

(** X9.  A successful Register stores, as the last row of the table, a
    row for the caller that carries the returned identifier, is flagged
    current, is stamped with the first clock reading and the client
    address, and is named ["<browser> on <os>"] from the names the parser
    found, which also fill the [browser] and [os] columns. *)
Theorem register_stores_named_row
    (rt : Runtime) (req : Request) (d : Database) (deviceId browser os : string) :
  fst (serve (POST rt req) d) = Normal (registered deviceId) ->
  browser_name (UAParser rt (headers_get req "user-agent")) = Some browser ->
  os_name (UAParser rt (headers_get req "user-agent")) = Some os ->
  exists u earlier,
    getUser rt = SessionResolved (Some u)
    /\ device_history (tables_after (POST rt req) d) =
         earlier ++
         [mkDevice (id u) deviceId (browser ++ " on " ++ os)%string
                   (Some browser) (Some os) (client_ip req) true (toISOString rt 0)].
Proof.
  intros Hok Hbrowser Hos. unfold tables_after.
  destruct (getUser rt) as [[u |] | e] eqn:Hsession.
  - exists u. revert Hok.
    by_answers rt; run_handler; rewrite Hsession; use_answers;
      try discriminate; intros Hok; injection Hok as <-;
      rewrite Hbrowser, Hos; eexists; (split; [reflexivity |]); reflexivity.
  - revert Hok. run_handler. rewrite Hsession. cbn. discriminate.
  - revert Hok. run_handler. rewrite Hsession. cbn. discriminate.
Qed.

Lemma register_stores_named_row_witness :
  exists earlier,
    device_history
      (tables_after (POST (Sample.signed_in Sample.always_applied)
                          Sample.browser_request) Sample.tables)
    = earlier ++
      [mkDevice "alice" "dev-2" "Chrome on Windows" (Some "Chrome") (Some "Windows")
                (Some "10.0.0.7") true "2024-02-01T10:00:00.000Z"].
Proof.
  destruct (register_stores_named_row
              (Sample.signed_in Sample.always_applied) Sample.browser_request
              Sample.tables "dev-2" "Chrome" "Windows" eq_refl eq_refl eq_refl)
    as (u & earlier & Hu & Hrows).
  exists earlier. injection Hu as <-. exact Hrows.
Defined.

(* ===================================================================== *)
(** ** Further properties of Remove                                       *)
(* ===================================================================== *)

(** The tables a Remove call by a resolved user leaves behind, for every
    request body and every way the backend may answer. *)
Lemma remove_tables (rt : Runtime) (req : Request) (d : Database) (u : User) :
  getUser rt = SessionResolved (Some u) ->
  tables_after (DELETE rt req) d =
    match body_deviceId req, backend rt 0 with
    | Some deviceId, Applied =>
        mkDatabase
          (filter (fun x => negb (targeted (id u) deviceId x)) (device_history d))
          (security_logs d
           ++ match backend rt 1 with
              | Applied => [removed_entry rt req u deviceId]
              | _ => []
              end)
    | _, _ => d
    end.
Proof.
  intros Hsession. unfold tables_after, body_deviceId, removed_entry.
  run_handler. rewrite Hsession. cbn.
  destruct (json req) as [e | v]; [reflexivity |].
  destruct v; cbn; try reflexivity;
    (destruct (backend rt 0); cbn; try reflexivity;
     destruct (backend rt 1); cbn; rewrite ?app_nil_r; try reflexivity;
     destruct d; reflexivity).
Qed.

Lemma foreign_not_targeted (uid : string) (deviceId : JsValue) (rows : list DeviceInfo) :
  filter (foreign uid) (filter (fun x => negb (targeted uid deviceId x)) rows)
  = filter (foreign uid) rows.
Proof.
  unfold foreign, targeted. induction rows as [| x rows IH]; [reflexivity |].
  cbn [filter]. destruct (owned_by uid x) eqn:Hx; cbn [andb negb].
  - destruct (device_id x =? ToString deviceId)%string; cbn [negb filter];
      rewrite ?Hx; cbn [negb]; exact IH.
  - cbn [filter]. rewrite Hx. cbn [negb]. now rewrite IH.
Qed.

(** X10.  Remove never touches another user's rows and never adds or
    alters a row.  Whatever the request body and the backend's answers,
    the rows that do not belong to the caller are the same after the call
    as before it, and every row in the table afterwards was already
    there. *)
Theorem remove_leaves_other_rows
    (rt : Runtime) (req : Request) (d : Database) (u : User) :
  getUser rt = SessionResolved (Some u) ->
  filter (foreign (id u)) (device_history (tables_after (DELETE rt req) d))
  = filter (foreign (id u)) (device_history d)
  /\ (forall x, In x (device_history (tables_after (DELETE rt req) d)) ->
                In x (device_history d)).
Proof.
  intros Hsession. rewrite (remove_tables rt req d u Hsession).
  destruct (body_deviceId req) as [v |]; [| split; [reflexivity | trivial]].
  destruct (backend rt 0); try (split; [reflexivity | trivial]).
  cbn [device_history]. split.
  - apply foreign_not_targeted.
  - intros x Hin. now apply filter_In in Hin.
Qed.

Lemma remove_leaves_other_rows_witness :
  filter (foreign "alice")
    (device_history
       (tables_after (DELETE (Sample.signed_in Sample.always_applied)
                             Sample.browser_request) Sample.tables))
  = [Sample.phone_of_bob].
Proof.
  exact (proj1 (remove_leaves_other_rows
                  (Sample.signed_in Sample.always_applied) Sample.browser_request
                  Sample.tables Sample.alice eq_refl)).
Defined.

(** X11.  After a Remove that answers success for a request naming the
    string identifier [deviceId], the caller has no row left under that
    identifier; the rows that remain are exactly the earlier rows other
    than the caller's rows under it. *)
Theorem remove_success_removes_target
    (rt : Runtime) (req : Request) (d : Database) (deviceId : string) :
  fst (serve (DELETE rt req) d) = Normal removed ->
  body_deviceId req = Some (JsString deviceId) ->
  exists u,
    getUser rt = SessionResolved (Some u)
    /\ device_history (tables_after (DELETE rt req) d)
       = filter (fun x => negb (owned_by (id u) x && (device_id x =? deviceId)%string))
                (device_history d)
    /\ (forall x, In x (device_history (tables_after (DELETE rt req) d)) ->
                  user_id x = id u -> device_id x <> deviceId).
Proof.
  intros Hok Hbody.
  destruct (getUser rt) as [[u |] | e] eqn:Hsession.
  - assert (Hdelete : backend rt 0 = Applied).
    { revert Hok Hbody. unfold body_deviceId. run_handler. rewrite Hsession. cbn.
      destruct (json req) as [e | v]; cbn; [discriminate |].
      destruct v; cbn; try discriminate;
        (destruct (backend rt 0); cbn; try discriminate; reflexivity). }
    exists u. split; [reflexivity |].
    rewrite (remove_tables rt req d u Hsession), Hbody, Hdelete.
    cbn [device_history]. split; [reflexivity |].
    intros x Hin Howner Hid. apply filter_In in Hin as [_ Hkeep].
    unfold targeted, owned_by in Hkeep. cbn [ToString] in Hkeep.
    rewrite Howner, Hid, !String.eqb_refl in Hkeep. discriminate.
  - revert Hok. run_handler. rewrite Hsession. cbn.
    destruct (json req) as [e | v]; cbn; [discriminate |].
    destruct v; cbn; discriminate.
  - revert Hok. run_handler. rewrite Hsession. cbn. discriminate.
Qed.

Lemma remove_success_removes_target_witness :
  device_history
    (tables_after (DELETE (Sample.signed_in Sample.always_applied)
                          Sample.browser_request) Sample.tables)
  = [Sample.phone_of_bob].
Proof.
  destruct (remove_success_removes_target
              (Sample.signed_in Sample.always_applied) Sample.browser_request
              Sample.tables "dev-1" eq_refl eq_refl)
    as (u & Hu & Hrows & _).
  injection Hu as <-. exact Hrows.
Defined.



(** X13.  The request body is read before anything else in Remove.  A
    body that is not JSON, or is the JSON value [null], gives a 500 answer
    carrying the parse or destructuring error, with or without a resolved
    user; no query is sent and the tables are untouched. *)
Theorem remove_unreadable_body
    (rt : Runtime) (req : Request) (d : Database) (user : option User) :
  getUser rt = SessionResolved user ->
  body_deviceId req = None ->
  serve (DELETE rt req) d =
    (Normal (failure_response "Failed to remove device" (remove_fault req)),
     mkWorld d [] [("Error removing device:"%string, remove_fault req)])
  /\ (forall e, json req = inl e -> remove_fault req = e)
  /\ (json req = inr JsNull -> remove_fault req = destructure_error).
Proof.
  intros Hsession Hbody. unfold body_deviceId, remove_fault in *.
  run_handler. rewrite Hsession. cbn.
  destruct (json req) as [e | v].
  - cbn. split; [reflexivity |]. split; [| discriminate].
    intros e' He'. now injection He' as ->.
  - destruct v; try discriminate; cbn;
      (split; [reflexivity |]); (split; [discriminate | reflexivity]).
Qed.

Lemma remove_unreadable_body_witness :
  serve (DELETE (Sample.signed_in Sample.always_applied) Sample.bare_request) Sample.tables
  = (Normal (mkResponse 500 (ErrorBody "Unexpected end of JSON input")),
     mkWorld Sample.tables []
       [("Error removing device:"%string,
         mkError "SyntaxError" (Some "Unexpected end of JSON input"%string))]).
Proof.
  exact (proj1 (remove_unreadable_body
                  (Sample.signed_in Sample.always_applied) Sample.bare_request
                  Sample.tables (Some Sample.alice) eq_refl eq_refl)).
Defined.

(** X14.  Remove does not validate [deviceId].  A readable body that has
    no such property is taken to name the identifier [undefined]: with the
    backend carrying out both queries the call answers success, deletes
    only the caller's rows stored under the text "undefined" (so keeps
    every row stored under any other identifier), and still writes the
    audit entry, whose [device_id] is [undefined]. *)
Theorem remove_without_deviceId
    (rt : Runtime) (req : Request) (d : Database) (u : User) :
  getUser rt = SessionResolved (Some u) ->
  body_deviceId req = Some JsUndefined ->
  backend rt 0 = Applied ->
  backend rt 1 = Applied ->
  fst (serve (DELETE rt req) d) = Normal removed
  /\ device_history (tables_after (DELETE rt req) d)
     = filter (fun x => negb (owned_by (id u) x && (device_id x =? "undefined")%string))
              (device_history d)
  /\ (forall x, In x (device_history d) -> device_id x <> "undefined"%string ->
                In x (device_history (tables_after (DELETE rt req) d)))
  /\ security_logs (tables_after (DELETE rt req) d)
     = security_logs d
       ++ [mkLog (id u) device_removed JsUndefined (toISOString rt 0) (client_ip req)].
Proof.
  intros Hsession Hbody Hdelete Haudit. unfold tables_after.
  rewrite (remove_applied rt req d u JsUndefined Hsession Hbody Hdelete Haudit).
  cbn [fst snd db device_history security_logs].
  split; [reflexivity |]. split; [reflexivity |]. split; [| reflexivity].
  intros x Hin Hid. apply filter_In. split; [exact Hin |].
  unfold targeted. cbn [ToString].
  apply String.eqb_neq in Hid. rewrite Hid. now rewrite andb_false_r.
Qed.

Lemma remove_without_deviceId_witness :
  fst (serve (DELETE (Sample.signed_in Sample.always_applied)
                     (mkRequest [] (inr (JsObject []))))
             Sample.tables) = Normal removed
  /\ device_history
       (tables_after (DELETE (Sample.signed_in Sample.always_applied)
                             (mkRequest [] (inr (JsObject []))))
                     Sample.tables)
     = device_history Sample.tables.
Proof.
  destruct (remove_without_deviceId
              (Sample.signed_in Sample.always_applied)
              (mkRequest [] (inr (JsObject []))) Sample.tables Sample.alice
              eq_refl eq_refl eq_refl eq_refl)
    as (Hresp & Hrows & _).
  split; [exact Hresp | exact Hrows].
Defined.

(* ===================================================================== *)
(** ** How the operations compose                                         *)
(* ===================================================================== *)

Lemma fresh_not_targeted (uid deviceId : string) (rows : list DeviceInfo) :
  (forall x, In x rows -> user_id x = uid -> device_id x <> deviceId) ->
  filter (fun x => negb (targeted uid (JsString deviceId) x)) (cleared uid rows)
  = cleared uid rows.
Proof.
  unfold cleared, targeted. cbn [ToString].
  induction rows as [| x rows IH]; intros Hfresh; [reflexivity |].
  cbn [map filter].
  assert (Hx : owned_by uid x && (device_id x =? deviceId)%string = false).
  { destruct (owned_by uid x) eqn:Howner; [| reflexivity]. cbn [andb].
    apply String.eqb_neq. apply Hfresh; [now left |].
    now apply String.eqb_eq. }
  assert (Hkeep : negb (owned_by uid (if owned_by uid x then set_not_current x else x)
                        && (device_id (if owned_by uid x then set_not_current x else x)
                            =? deviceId)%string) = true).
  { destruct (owned_by uid x) eqn:Howner.
    - rewrite owned_by_set_not_current, Howner. cbn [device_id set_not_current].
      cbn [andb] in Hx. now rewrite Hx.
    - now rewrite Howner. }
  rewrite Hkeep. f_equal. apply IH.
  intros y Hy. apply Hfresh. now right.
Qed.

Lemma targeted_new_device (rt : Runtime) (req : Request) (u : User) :
  targeted (id u) (JsString (uuidv4 rt)) (new_device rt req u) = true.
Proof.
  unfold targeted, owned_by, new_device. cbn [user_id device_id ToString].
  now rewrite !String.eqb_refl.
Qed.

(** X15.  Register followed by Remove of the identifier it returned, both
    carried out in full, with that identifier not already used by one of
    the caller's rows.  The device table is back to the rows it held, but
    with the caller's [is_current] flags cleared: removing the device just
    registered leaves the caller with no current device.  The audit table
    has gained the [new_device_added] and the [device_removed] entry, in
    that order. *)
Theorem register_then_remove
    (rt1 rt2 : Runtime) (req1 req2 : Request) (d : Database) (u : User) :
  getUser rt1 = SessionResolved (Some u) ->
  getUser rt2 = SessionResolved (Some u) ->
  backend rt1 0 = Applied -> backend rt1 1 = Applied -> backend rt1 2 = Applied ->
  body_deviceId req2 = Some (JsString (uuidv4 rt1)) ->
  backend rt2 0 = Applied -> backend rt2 1 = Applied ->
  (forall x, In x (device_history d) -> user_id x = id u -> device_id x <> uuidv4 rt1) ->
  device_history (tables_after (DELETE rt2 req2) (tables_after (POST rt1 req1) d))
  = cleared (id u) (device_history d)
  /\ current_rows (id u)
       (device_history (tables_after (DELETE rt2 req2) (tables_after (POST rt1 req1) d)))
     = []
  /\ security_logs (tables_after (DELETE rt2 req2) (tables_after (POST rt1 req1) d))
     = security_logs d
       ++ [ added_entry rt1 req1 u;
            removed_entry rt2 req2 u (JsString (uuidv4 rt1)) ].
Proof.
  intros Hs1 Hs2 Hc Hi Ha Hbody Hd2 Ha2 Hfresh.
  rewrite (remove_tables rt2 req2 _ u Hs2), Hbody, Hd2, Ha2.
  rewrite (register_tables rt1 req1 d u Hs1).
  unfold flags_cleared, entry_stored, device_stored. rewrite Hc, Hi, Ha.
  cbn [andb device_history security_logs].
  assert (Hrows : filter (fun x => negb (targeted (id u) (JsString (uuidv4 rt1)) x))
                         (cleared (id u) (device_history d) ++ [new_device rt1 req1 u])
                  = cleared (id u) (device_history d)).
  { rewrite filter_app, (fresh_not_targeted _ _ _ Hfresh). cbn [filter].
    rewrite targeted_new_device. cbn [negb]. apply app_nil_r. }
  rewrite Hrows. split; [reflexivity |]. split; [apply current_rows_cleared |].
  now rewrite <- app_assoc.
Qed.

Lemma register_then_remove_witness :
  device_history
    (tables_after (DELETE (Sample.signed_in Sample.always_applied)
                          (mkRequest [] (inr (JsObject [("deviceId"%string, JsString "dev-2")]))))
       (tables_after (POST (Sample.signed_in Sample.always_applied) Sample.browser_request)
                     Sample.tables))
  = [set_not_current Sample.laptop; Sample.phone_of_bob].
Proof.
  refine (proj1 (register_then_remove
                   (Sample.signed_in Sample.always_applied)
                   (Sample.signed_in Sample.always_applied)
                   Sample.browser_request
                   (mkRequest [] (inr (JsObject [("deviceId"%string, JsString "dev-2")])))
                   Sample.tables Sample.alice
                   eq_refl eq_refl eq_refl eq_refl eq_refl eq_refl eq_refl eq_refl _)).
  intros x [<- | [<- | []]] _; discriminate.
Defined.

Lemma owned_cleared_not_current (uid : string) (rows : list DeviceInfo) (x : DeviceInfo) :
  In x (cleared uid rows) -> owned_by uid x = true -> is_current x = false.
Proof.
  unfold cleared. intros Hin Howner.
  apply in_map_iff in Hin as (y & <- & _).
  destruct (owned_by uid y) eqn:Hy; [reflexivity |].
  rewrite Hy in Howner. discriminate.
Qed.

Lemma length_owned_cleared (uid : string) (rows : list DeviceInfo) :
  length (filter (owned_by uid) (cleared uid rows))
  = length (filter (owned_by uid) rows).
Proof.
  unfold cleared. induction rows as [| x rows IH]; [reflexivity |].
  cbn [map filter]. destruct (owned_by uid x) eqn:Hx.
  - rewrite owned_by_set_not_current, Hx. cbn [length]. now rewrite IH.
  - rewrite Hx. exact IH.
Qed.

(** X16.  Register followed by List, for the same user, with the clearing
    update, the insert and the select carried out.  The listing holds the
    new row, the new row is the only one in it flagged current, and it
    has one row more than the user had before. *)
Theorem register_then_list
    (rt1 rt2 : Runtime) (req1 req2 : Request) (d : Database) (u : User) :
  getUser rt1 = SessionResolved (Some u) ->
  getUser rt2 = SessionResolved (Some u) ->
  backend rt1 0 = Applied -> backend rt1 1 = Applied ->
  backend rt2 0 = Applied ->
  exists rows,
    fst (serve (GET rt2 req2) (tables_after (POST rt1 req1) d))
      = Normal (mkResponse 200 (DevicesBody (Some rows)))
    /\ In (new_device rt1 req1 u) rows
    /\ (forall x, In x rows -> is_current x = true -> x = new_device rt1 req1 u)
    /\ length rows = S (length (filter (owned_by (id u)) (device_history d))).
Proof.
  intros Hs1 Hs2 Hc Hi Hselect.
  rewrite (register_tables rt1 req1 d u Hs1).
  unfold flags_cleared, device_stored. rewrite Hc, Hi.
  set (after := cleared (id u) (device_history d) ++ [new_device rt1 req1 u]).
  assert (Hown : owned_by (id u) (new_device rt1 req1 u) = true).
  { unfold owned_by, new_device. cbn [user_id]. apply String.eqb_refl. }
  exists (order_desc (filter (owned_by (id u)) after)).
  split; [| split; [| split]].
  - run_handler. rewrite Hs2. cbn. rewrite Hselect. reflexivity.
  - apply (Permutation_in _ (order_desc_perm _)).
    apply filter_In. split; [| exact Hown].
    apply in_or_app. right. now left.
  - intros x Hin Hcur.
    apply (Permutation_in _ (Permutation_sym (order_desc_perm _))) in Hin.
    apply filter_In in Hin as [Hin Howner].
    apply in_app_or in Hin as [Hold | [<- | []]]; [| reflexivity].
    rewrite (owned_cleared_not_current _ _ _ Hold Howner) in Hcur. discriminate.
  - rewrite <- (Permutation_length (order_desc_perm _)).
    unfold after. rewrite filter_app, length_app, length_owned_cleared.
    cbn [filter]. rewrite Hown. cbn [length]. lia.
Qed.

Lemma register_then_list_witness :
  exists rows,
    fst (serve (GET (Sample.signed_in Sample.always_applied) Sample.browser_request)
               (tables_after (POST (Sample.signed_in Sample.always_applied)
                                   Sample.browser_request) Sample.tables))
      = Normal (mkResponse 200 (DevicesBody (Some rows)))
    /\ length rows = 2.
Proof.
  destruct (register_then_list
              (Sample.signed_in Sample.always_applied)
              (Sample.signed_in Sample.always_applied)
              Sample.browser_request Sample.browser_request
              Sample.tables Sample.alice eq_refl eq_refl eq_refl eq_refl eq_refl)
    as (rows & Hresp & _ & _ & Hlen).
  exists rows. split; [exact Hresp | exact Hlen].
Defined.

(* ===================================================================== *)
(** ** Runs of the error boundary                                         *)
(* ===================================================================== *)

Section BoundaryRuns.

Context {C P : Type}.
Implicit Types (i : @ErrorBoundary.Instance C P) (p : @ErrorBoundary.Props C P).

Import ErrorBoundary Lifecycle.

Lemma run_cons i (ev : Event) (evs : list Event) :
  run i (ev :: evs) = run (step i ev) evs.
Proof. reflexivity. Qed.

(** The two kinds of state a mounted boundary is ever in. *)
Lemma step_two_states i (ev : Event) :
  (current i = mkState false None \/ exists e, current i = mkState true (Some e)) ->
  props (step i ev) = props i
  /\ (current (step i ev) = mkState false None
      \/ exists e, current (step i ev) = mkState true (Some e)).
Proof.
  intros Hstate. destruct i as [p s lines]. cbn in Hstate.
  destruct ev as [[| e] |]; cbn; unfold render_pass; cbn [current props].
  - destruct (hasError s); cbn; auto.
  - destruct (hasError s); cbn; [auto |]. split; [reflexivity |]. right. now exists e.
  - auto.
Qed.

(** X17.  Through any sequence of render passes and retries, a mounted
    boundary keeps the props it was mounted with and is always in one of
    two states: normal with no error stored, or errored with the thrown
    error stored.  It is never errored without an error, nor normal with
    a stale one. *)
Theorem boundary_always_in_one_of_two_states p (evs : list Event) :
  props (run (mount p) evs) = p
  /\ (current (run (mount p) evs) = mkState false None
      \/ exists e, current (run (mount p) evs) = mkState true (Some e)).
Proof.
  assert (Hgen : forall evs i,
             (current i = mkState false None
              \/ exists e, current i = mkState true (Some e)) ->
             props (run i evs) = props i
             /\ (current (run i evs) = mkState false None
                 \/ exists e, current (run i evs) = mkState true (Some e))).
  { clear evs. induction evs as [| ev evs IH]; intros i Hstate.
    - split; [reflexivity | exact Hstate].
    - rewrite run_cons.
      destruct (step_two_states i ev Hstate) as [Hprops Hnext].
      destruct (IH (step i ev) Hnext) as [Hp Hs].
      split; [now rewrite Hp | exact Hs]. }
  apply (Hgen evs (mount p)). left. reflexivity.
Qed.

(** X18.  The errored state is left only by a retry.  Once errored, any
    sequence of events without a retry -- however many render passes,
    whether the children would now render or throw -- leaves the boundary
    exactly as it was: same stored error, same output, nothing more
    logged. *)
Theorem errored_until_retry i (evs : list Event) :
  hasError (current i) = true ->
  forallb (fun ev => negb (is_retry ev)) evs = true ->
  run i evs = i /\ shown (run i evs) = shown i.
Proof.
  intros Herr Hnoretry.
  assert (Hrun : run i evs = i).
  { induction evs as [| ev evs IH]; [reflexivity |].
    cbn [forallb] in Hnoretry. apply andb_prop in Hnoretry as [Hev Hrest].
    rewrite run_cons.
    assert (Hstep : step i ev = i).
    { destruct ev as [a |]; [| discriminate].
      cbn. unfold render_pass. now rewrite Herr. }
    rewrite Hstep. now apply IH. }
  now rewrite Hrun.
Qed.

(** X19.  A boundary whose children never throw is invisible: after any
    sequence of events in which no pass throws, it is as freshly mounted,
    shows its children and has logged nothing. *)
Theorem boundary_transparent_without_throws p (evs : list Event) :
  forallb (fun ev => negb (is_throw ev)) evs = true ->
  run (mount p) evs = mount p
  /\ shown (run (mount p) evs) = children p
  /\ log (run (mount p) evs) = [].
Proof.
  intros Hquiet.
  assert (Hrun : run (mount p) evs = mount p).
  { induction evs as [| ev evs IH]; [reflexivity |].
    cbn [forallb] in Hquiet. apply andb_prop in Hquiet as [Hev Hrest].
    rewrite run_cons.
    assert (Hstep : step (mount p) ev = mount p).
    { destruct ev as [[| e] |]; [reflexivity | discriminate | reflexivity]. }
    rewrite Hstep. now apply IH. }
  rewrite Hrun. repeat split; reflexivity.
Qed.

Lemma step_log_budget i (ev : Event) :
  length (log (step i ev)) + (if hasError (current (step i ev)) then 0 else 1)
  <= length (log i) + (if hasError (current i) then 0 else 1)
     + (if is_retry ev then 1 else 0)
  /\ length (log (step i ev)) <= length (log i) + (if is_throw ev then 1 else 0).
Proof.
  destruct i as [p [[|] stored] lines];
    destruct ev as [[| e] |]; cbn; unfold componentDidCatch;
    rewrite ?length_app; cbn; lia.
Qed.

Lemma run_log i (evs : list Event) :
  log (run i evs)
  = log i ++ map (fun e => ("Uncaught error:"%string, e))
                 (reported (hasError (current i)) evs).
Proof.
  revert i. induction evs as [| ev evs IH]; intros i.
  - cbn. now rewrite app_nil_r.
  - rewrite run_cons, IH.
    destruct i as [p [[|] stored] lines]; destruct ev as [[| e] |]; cbn;
      unfold componentDidCatch; rewrite <- ?app_assoc; reflexivity.
Qed.

(** X20.  Each failure is reported exactly once.  After any sequence of
    events the diagnostic log of a mounted boundary holds one line,
    labelled "Uncaught error:", for each pass that threw while the
    boundary was in the normal state -- that pass's error, in the order
    the passes happened -- and nothing else.  In particular the log has
    no more lines than there were throwing passes, and no more than one
    line per retry plus one. *)
Theorem boundary_logs_each_failure_once p (evs : list Event) :
  log (run (mount p) evs)
  = map (fun e => ("Uncaught error:"%string, e)) (reported false evs)
  /\ length (log (run (mount p) evs)) <= length (filter is_throw evs)
  /\ length (log (run (mount p) evs)) <= S (length (filter is_retry evs)).
Proof.
  split; [exact (run_log (mount p) evs) |].
  assert (Hgen : forall evs i,
             length (log (run i evs)) <= length (log i) + length (filter is_throw evs)
             /\ length (log (run i evs))
                + (if hasError (current (run i evs)) then 0 else 1)
                <= length (log i) + (if hasError (current i) then 0 else 1)
                   + length (filter is_retry evs)).
  { clear evs. induction evs as [| ev evs IH]; intros i.
    - cbn. lia.
    - rewrite run_cons. cbn [filter].
      destruct (IH (step i ev)) as [Hthrows Hretries].
      destruct (step_log_budget i ev) as [Hb1 Hb2].
      destruct (is_throw ev), (is_retry ev); cbn [length]; lia. }
  destruct (Hgen evs (mount p)) as [Hthrows Hretries].
  cbn in Hthrows, Hretries.
  split; [exact Hthrows |].
  destruct (hasError (current (run (mount p) evs))); lia.
Qed.

End BoundaryRuns.

Lemma errored_until_retry_witness :
  Lifecycle.run
    (Lifecycle.run (ErrorBoundary.mount
                      (ErrorBoundary.mkProps (RComponent "Widget"%string tt) RUndefined))
                   [Lifecycle.Pass (ErrorBoundary.Throws (mkError "Error" (Some "boom"%string)))])
    [Lifecycle.Pass ErrorBoundary.Renders; Lifecycle.Pass ErrorBoundary.Renders]
  = Lifecycle.run (ErrorBoundary.mount
                     (ErrorBoundary.mkProps (RComponent "Widget"%string tt) RUndefined))
                  [Lifecycle.Pass (ErrorBoundary.Throws (mkError "Error" (Some "boom"%string)))].
Proof.
  exact (proj1 (errored_until_retry
                  (Lifecycle.run
                     (ErrorBoundary.mount
                        (ErrorBoundary.mkProps (RComponent "Widget"%string tt) RUndefined))
                     [Lifecycle.Pass
                        (ErrorBoundary.Throws (mkError "Error" (Some "boom"%string)))])
                  [Lifecycle.Pass ErrorBoundary.Renders; Lifecycle.Pass ErrorBoundary.Renders]
                  eq_refl eq_refl)).
Defined.

Lemma boundary_transparent_without_throws_witness :
  Lifecycle.shown
    (Lifecycle.run (ErrorBoundary.mount
                      (ErrorBoundary.mkProps (RComponent "Widget"%string tt) RUndefined))
                   [Lifecycle.Pass ErrorBoundary.Renders; Lifecycle.Retry;
                    Lifecycle.Pass ErrorBoundary.Renders])
  = RComponent "Widget"%string tt.
Proof.
  exact (proj1 (proj2 (boundary_transparent_without_throws
                         (ErrorBoundary.mkProps (RComponent "Widget"%string tt) RUndefined)
                         [Lifecycle.Pass ErrorBoundary.Renders; Lifecycle.Retry;
                          Lifecycle.Pass ErrorBoundary.Renders]
                         eq_refl))).
Defined.
